(** * stocksenti: news retrieval and sentiment aggregation

    A shallow embedding of the decision logic of the two front ends,
    [sentiment.py] (the dashboard) and [telegram_bot.py] (the chat bot):
    symbol resolution, news fetching, normalisation of the classifier's
    output, aggregation and the bot's result rendering.

    Conventions of the embedding.
    - Python [str] is [string]; [str.upper] and [str.lower] act on the
      ASCII letters and leave every other byte alone.
    - Python [float] confidences are idealised as exact rationals [Q];
      scores are only compared, summed and divided.
    - A Python exception is the [Raise] constructor of [result]; a
      [try]/[except Exception] block is a match on it.
    - Calls to the external collaborators (news providers, classifier, UI
      notices) are recorded in an event log returned next to the value. *)

From Stdlib Require Import List String Ascii ZArith QArith Bool Lia.
From Stdlib Require Import Permutation.
Import ListNotations.
Open Scope string_scope.

(** ** Python values and exceptions *)

Inductive exn : Type :=
| ValueError
| KeyError
| ZeroDivisionError
| OSError
| ProviderError.

Inductive result (A : Type) : Type :=
| Ok (a : A)
| Raise (e : exn).
Arguments Ok {A} a.
Arguments Raise {A} e.

Definition bind {A B : Type} (m : result A) (k : A -> result B) : result B :=
  match m with
  | Ok a => k a
  | Raise e => Raise e
  end.

Notation "x <- m ;; k" := (bind m (fun x => k))
  (at level 61, m at next level, right associativity).

(** [for x in xs: ys.append(f(x))] where [f] may raise: the first exception
    aborts the loop. *)
Fixpoint for_each {A B : Type} (f : A -> result B) (xs : list A)
  : result (list B) :=
  match xs with
  | [] => Ok []
  | x :: xs' => y <- f x ;; ys <- for_each f xs' ;; Ok (y :: ys)
  end.

Module Py.

(** [c.upper()] on one ASCII character. *)
Definition upper_ascii (c : ascii) : ascii :=
  let n := nat_of_ascii c in
  if ((97 <=? n) && (n <=? 122))%nat then ascii_of_nat (n - 32) else c.

Definition lower_ascii (c : ascii) : ascii :=
  let n := nat_of_ascii c in
  if ((65 <=? n) && (n <=? 90))%nat then ascii_of_nat (n + 32) else c.

Fixpoint str_map (f : ascii -> ascii) (s : string) : string :=
  match s with
  | EmptyString => EmptyString
  | String c s' => String (f c) (str_map f s')
  end.

Definition upper (s : string) : string := str_map upper_ascii s.
Definition lower (s : string) : string := str_map lower_ascii s.

(** [needle in hay] on strings. *)
Fixpoint contains (needle hay : string) : bool :=
  String.prefix needle hay
  || match hay with
     | EmptyString => false
     | String _ hay' => contains needle hay'
     end.

(** Truthiness of a string and of an optional string ([None] or a
    missing key). *)
Definition truthy (s : string) : bool := negb (s =? "").

Definition truthy_opt (o : option string) : bool :=
  match o with
  | Some s => truthy s
  | None => false
  end.

(** [xs[:n]]: a negative bound counts from the end. *)
Definition slice_to {A : Type} (xs : list A) (n : Z) : list A :=
  if (n <? 0)%Z
  then firstn (List.length xs - Z.to_nat (- n)) xs
  else firstn (Z.to_nat n) xs.

(** [max(xs, key=k)]: the first element whose key is maximal; the
    running best is replaced only by a strictly greater key.
    [ValueError] on an empty sequence. *)
Definition Qltb (a b : Q) : bool := negb (Qle_bool b a).

Fixpoint max_from {A : Type} (k : A -> Q) (best : A) (xs : list A) : A :=
  match xs with
  | [] => best
  | x :: xs' => max_from k (if Qltb (k best) (k x) then x else best) xs'
  end.

Definition max_by {A : Type} (k : A -> Q) (xs : list A) : result A :=
  match xs with
  | [] => Raise ValueError
  | x :: xs' => Ok (max_from k x xs')
  end.

(** [any(p(x) for x in xs)]. *)
Definition any {A : Type} (p : A -> bool) (xs : list A) : bool :=
  existsb p xs.

(** [sum(1 for x in xs if p(x))]. *)
Fixpoint sum_ones {A : Type} (p : A -> bool) (xs : list A) : Z :=
  match xs with
  | [] => 0
  | x :: xs' => if p x then 1 + sum_ones p xs' else sum_ones p xs'
  end%Z.

(** [sum(k(x) for x in xs)], accumulated left to right from 0. *)
Definition sum_of {A : Type} (k : A -> Q) (xs : list A) : Q :=
  fold_left (fun acc x => acc + k x) xs 0.

(** [s.title()]: a letter is upper-cased when it starts a run of
    letters and lower-cased inside one. *)
Definition is_letter (c : ascii) : bool :=
  let n := nat_of_ascii c in
  (((65 <=? n) && (n <=? 90)) || ((97 <=? n) && (n <=? 122)))%nat.

Fixpoint title_from (prev_letter : bool) (s : string) : string :=
  match s with
  | EmptyString => EmptyString
  | String c s' =>
      String (if prev_letter then lower_ascii c else upper_ascii c)
             (title_from (is_letter c) s')
  end.

Definition title (s : string) : string := title_from false s.

(** [s[:n]] on a string, for [n >= 0]. *)
Definition str_slice_to (s : string) (n : nat) : string :=
  String.substring 0 n s.

(** [a / b] on numbers. *)
Definition truediv (a b : Q) : result Q :=
  if Qeq_bool b 0 then Raise ZeroDivisionError else Ok (a / b).

(** [c.isspace()] on one ASCII character: tab, line feed, vertical
    tab, form feed, carriage return, the four separators 28 to 31, and
    the space. Python knows white space outside ASCII as well (the
    no-break space, for one): [strip] and [split] below are Python's on
    text of ASCII characters. *)
Definition is_space (c : ascii) : bool :=
  let n := nat_of_ascii c in
  (((9 <=? n) && (n <=? 13)) || ((28 <=? n) && (n <=? 32)))%nat.

(** [s.lstrip()], for ASCII text. *)
Fixpoint lstrip (s : string) : string :=
  match s with
  | EmptyString => EmptyString
  | String c s' => if is_space c then lstrip s' else s
  end.

(** [s.rstrip()], for ASCII text. *)
Fixpoint rstrip (s : string) : string :=
  match s with
  | EmptyString => EmptyString
  | String c s' =>
      let r := rstrip s' in
      if is_space c && (r =? "") then EmptyString else String c r
  end.

(** [s.strip()], for ASCII text. *)
Definition strip (s : string) : string := rstrip (lstrip s).

(** [s.split()], for ASCII text: the maximal runs of characters that are
    not white space, in order. *)
Fixpoint split (s : string) : list string :=
  match s with
  | EmptyString => []
  | String c s' =>
      if is_space c then split s'
      else
        match s' with
        | EmptyString => [String c EmptyString]
        | String c' _ =>
            if is_space c' then String c EmptyString :: split s'
            else
              match split s' with
              | w :: ws => String c w :: ws
              | [] => [String c EmptyString]
              end
        end
  end.

(** [sep.join(parts)]. *)
Definition join (sep : string) (parts : list string) : string :=
  String.concat sep parts.

(** [s.startswith(p)]. *)
Definition startswith (s p : string) : bool := String.prefix p s.

End Py.

(** ** Classifier output *)

(** One [{'label': ..., 'score': ...}] record. *)
Record label_score : Type := mk_label_score {
  label : string;
  score : Q
}.

(** What the model hands back for one text: a single top record, or the
    list of per-class records. *)
Inductive model_result : Type :=
| Single (r : label_score)
| PerClass (rs : list label_score).

(** The loaded model: called on the list of texts. *)
Definition pipeline : Type := list string -> result (list model_result).

(** [label_mapping.get(label, label)]. *)
Definition label_mapping : list (string * string) :=
  [ ("LABEL_0", "NEGATIVE");
    ("LABEL_1", "NEUTRAL");
    ("LABEL_2", "POSITIVE");
    ("NEGATIVE", "NEGATIVE");
    ("NEUTRAL", "NEUTRAL");
    ("POSITIVE", "POSITIVE") ].

Fixpoint dict_get (d : list (string * string)) (key default : string)
  : string :=
  match d with
  | [] => default
  | (k, v) :: d' => if k =? key then v else dict_get d' key default
  end.

(** The body of the loop shared by the two [analyze_sentiment]s. *)
Definition normalize_result (res : model_result) : result label_score :=
  r <- match res with
       | PerClass rs => Py.max_by score rs
       | Single r => Ok r
       end ;;
  let lbl := Py.upper (label r) in
  let sc := score r in
  let mapped_label := dict_get label_mapping lbl lbl in
  Ok {| label := mapped_label; score := sc |}.

(** The events the code causes outside itself. *)
Inductive event : Type :=
| CallPipeline (texts : list string)
| CallSymbolLookup (query : string)
| CallCompanyNews (symbol : string) (days_back : Z)
| CallGetEverything (query : string) (days_back : Z) (page_size : Z)
| UiWarning (text : string)
| UiError (text : string)
| LogError (text : string).

(** ** News providers *)

(** One entry of [search_results['result']]; a field is [None] when the
    key is missing. *)
Record candidate : Type := mk_candidate {
  cand_type : option string;
  cand_symbol : option string
}.

(** One entry of the list [company_news] returns. *)
Record raw_news : Type := mk_raw_news {
  headline : option string;
  summary : option string;
  news_url : option string;
  datetime : option Z;
  news_source : option string
}.

(** The article dictionary handed on to the classifier and the views
    ([source] is the provider's source name). *)
Record article : Type := mk_article {
  title : string;
  description : string;
  url : string;
  publishedAt : string;
  source : string
}.

(** The Finnhub client. [symbol_lookup] answers [Some candidates] when
    the response is non-empty and has a ['result'] key, [None] otherwise.
    [company_news symbol days_back] stands for the call with the window
    from [now - days_back] to [now]. *)
Record finnhub_api : Type := mk_finnhub_api {
  symbol_lookup : string -> result (option (list candidate));
  company_news : string -> Z -> result (list raw_news)
}.

(** The NewsAPI client: [get_everything q days_back page_size]; a null
    title or description of the response is the empty string. *)
Record newsapi_response : Type := mk_newsapi_response {
  status : string;
  articles : list article
}.

Record newsapi_api : Type := mk_newsapi_api {
  get_everything : string -> Z -> Z -> result newsapi_response
}.

(** The double-quote character as a string. *)
Definition dq : string := String "034"%char EmptyString.

(** [f'"{s}"']. *)
Definition quoted (s : string) : string := dq ++ s ++ dq.

(** [r.get('type') == 'Common Stock']. *)
Definition is_common_stock (r : candidate) : bool :=
  match cand_type r with
  | Some t => t =? "Common Stock"
  | None => false
  end.

(** [r.get('symbol', default)]. *)
Definition symbol_or (r : candidate) (default : string) : string :=
  match cand_symbol r with
  | Some s => s
  | None => default
  end.

(** The comprehension that selects the listings without exchange suffix. *)
Definition us_stocks_of (res : list candidate) : list candidate :=
  filter (fun r => is_common_stock r && negb (Py.contains "." (symbol_or r "")))
         res.

(** Truthiness of an optional handle. *)
Definition is_some {A : Type} (o : option A) : bool :=
  match o with
  | Some _ => true
  | None => false
  end.

(** The entries a loop appended, in order ([None] marks a skipped one). *)
Definition keep_some {A : Type} (xs : list (option A)) : list A :=
  flat_map (fun o => match o with Some a => [a] | None => [] end) xs.

(** ** sentiment.py: the dashboard *)

Module Dashboard.
Section Globals.

(** The module-level handles, and the platform's
    [datetime.fromtimestamp(t).isoformat()]. *)
Variable newsapi : option newsapi_api.
Variable finnhub_client : option finnhub_api.
Variable sentiment_pipeline : pipeline.
Variable isoformat_of_timestamp : Z -> result string.

(** [get_company_symbol(company_name)]: the symbol of the first common
    stock without exchange suffix, else of the first common stock, else
    [None]; a provider error is shown as a warning. *)
Definition get_company_symbol (company_name : string)
  : list event * option string :=
  match finnhub_client with
  | None => ([], None)
  | Some client =>
      match symbol_lookup client company_name with
      | Ok search_results =>
          ([CallSymbolLookup company_name],
           match search_results with
           | Some res =>
               match us_stocks_of res with
               | r :: _ => cand_symbol r
               | [] =>
                   match find is_common_stock res with
                   | Some r => cand_symbol r
                   | None => None
                   end
               end
           | None => None
           end)
      | Raise _ =>
          ([CallSymbolLookup company_name;
            UiWarning ("Could not find symbol for " ++ company_name)],
           None)
      end
  end.

(** The names after which the query gets its region-qualified terms. *)
Definition newsapi_indian_words : list string :=
  ["reliance"; "tcs"; "infosys"; "hdfc"; "wipro"; "icici"; "bharti"; "tata"].

(** [fetch_news_newsapi(company, num_articles, days_back)]. *)
Definition fetch_news_newsapi (company : string) (num_articles days_back : Z)
  : list event * list article :=
  match newsapi with
  | None => ([], [])
  | Some client =>
      let indian_terms :=
        if Py.any (fun word => Py.contains word (Py.lower company))
                  newsapi_indian_words
        then quoted (company ++ " India") ++ " OR "
             ++ quoted (company ++ " NSE") ++ " OR "
             ++ quoted (company ++ " BSE")
        else "" in
      let search_query :=
        quoted company ++ " OR " ++ quoted (company ++ " stock") ++ " OR "
        ++ quoted (company ++ " shares") ++ " " ++ indian_terms in
      match get_everything client search_query days_back num_articles with
      | Ok response =>
          ([CallGetEverything search_query days_back num_articles],
           if status response =? "ok" then articles response else [])
      | Raise _ =>
          ([CallGetEverything search_query days_back num_articles;
            UiError "Error fetching news from NewsAPI"], [])
      end
  end.

(** The body of the loop over [news[:num_articles]]: [None] when the
    entry is skipped. *)
Definition convert_news (a : raw_news) : result (option article) :=
  if Py.truthy_opt (headline a)
  then
    ts <- match datetime a with
          | Some t => Ok t
          | None => Raise KeyError
          end ;;
    published <- isoformat_of_timestamp ts ;;
    Ok (Some {| title := match headline a with Some h => h | None => "" end;
                description := match summary a with Some s => s | None => "" end;
                url := match news_url a with Some u => u | None => "" end;
                publishedAt := published;
                source := match news_source a with
                          | Some s => s
                          | None => "Finnhub"
                          end |})
  else Ok None.

(** [fetch_news_finnhub(company_symbol, num_articles, days_back)]: an
    exception of the provider or of the loop is shown as an error and
    gives []. *)
Definition fetch_news_finnhub (company_symbol : string)
    (num_articles days_back : Z) : list event * list article :=
  match finnhub_client with
  | None => ([], [])
  | Some client =>
      match (news <- company_news client company_symbol days_back ;;
             for_each convert_news (Py.slice_to news num_articles)) with
      | Ok converted =>
          ([CallCompanyNews company_symbol days_back], keep_some converted)
      | Raise _ =>
          ([CallCompanyNews company_symbol days_back;
            UiError "Error fetching news from Finnhub"], [])
      end
  end.

(** The names taken for Indian companies when no symbol is found. *)
Definition indian_companies : list string :=
  ["reliance"; "tcs"; "infosys"; "hdfc"; "wipro"; "icici"; "bharti";
   "airtel"; "sbi"; "maruti"].

(** [fetch_news(company, num_articles, source, days_back)]. *)
Definition fetch_news (company : string) (num_articles : Z)
    (source : string) (days_back : Z) : list event * list article :=
  if (source =? "finnhub") && is_some finnhub_client then
    let (ev, company_symbol) := get_company_symbol company in
    if Py.truthy_opt company_symbol then
      let (ev', found) :=
        fetch_news_finnhub (match company_symbol with
                            | Some sym => sym
                            | None => ""
                            end) num_articles days_back in
      ((ev ++ ev')%list, found)
    else
      ((ev ++ [UiWarning
                 (if Py.any (fun word => Py.contains word (Py.lower company))
                            indian_companies
                  then "Please switch to NewsAPI"
                  else "Could not find stock symbol")])%list, [])
  else if (source =? "newsapi") && is_some newsapi then
    fetch_news_newsapi company num_articles days_back
  else
    ([UiError ("No valid API configuration found for source: " ++ source)],
     []).

(** [analyze_sentiment(headlines)]. No handler: an exception of the
    model or of the loop reaches the caller. *)
Definition analyze_sentiment (headlines : list string)
  : list event * result (list label_score) :=
  match headlines with
  | [] => ([], Ok [])
  | _ :: _ =>
      ([CallPipeline headlines],
       results <- sentiment_pipeline headlines ;;
       for_each normalize_result results)
  end.

(** The figures of the "Sentiment Overview" block of the main script. *)
Record metrics : Type := mk_metrics {
  total_articles : Z;
  positive_articles : Z;
  negative_articles : Z;
  neutral_articles : Z;
  positive_pct : Q;
  negative_pct : Q;
  neutral_pct : Q
}.

(** [df['Sentiment'].value_counts().get(name, 0)]. *)
Definition value_count (name : string) (sentiments : list string) : Z :=
  Z.of_nat (List.length (filter (String.eqb name) sentiments)).

(** [f"{count/total_articles*100:.1f}%"], before formatting. *)
Definition percentage (count total : Z) : result Q :=
  q <- Py.truediv (inject_Z count) (inject_Z total) ;; Ok (q * 100).

(** The main script from [if articles:] to the three count metrics.
    The data frame needs columns of one length. [None] is the
    "No articles found" branch. *)
Definition overview (found : list article) : result (option metrics) :=
  match found with
  | [] => Ok None
  | _ :: _ =>
      let headlines := map title found in
      sentiment_results <- snd (analyze_sentiment headlines) ;;
      let sentiments := map (fun r => Py.title (label r)) sentiment_results in
      if negb (List.length headlines =? List.length sentiments)%nat
      then Raise ValueError
      else
        let total := Z.of_nat (List.length headlines) in
        let pos := value_count "Positive" sentiments in
        let neg := value_count "Negative" sentiments in
        let neu := value_count "Neutral" sentiments in
        ppos <- percentage pos total ;;
        pneg <- percentage neg total ;;
        pneu <- percentage neu total ;;
        Ok (Some {| total_articles := total;
                    positive_articles := pos; negative_articles := neg;
                    neutral_articles := neu;
                    positive_pct := ppos; negative_pct := pneg;
                    neutral_pct := pneu |})
  end.

(** The [Sentiment] column of the data frame: [label.title()] of every
    result. *)
Definition sentiment_column (sentiment_results : list label_score)
  : list string :=
  map (fun r => Py.title (label r)) sentiment_results.

(** [create_sentiment_pie_chart(sentiment_counts)]: the [values] handed
    to the pie, for the labels Positive, Negative, Neutral in this
    order. *)
Definition create_sentiment_pie_chart (sentiments : list string) : list Z :=
  [ value_count "POSITIVE" sentiments;
    value_count "NEGATIVE" sentiments;
    value_count "NEUTRAL" sentiments ].

(** The [Count] column of [sentiment_chart_data], for the bar chart's
    rows Positive, Neutral, Negative. *)
Definition sentiment_chart_data (sentiments : list string)
  : list (string * Z) :=
  [ ("Positive", value_count "Positive" sentiments);
    ("Neutral", value_count "Neutral" sentiments);
    ("Negative", value_count "Negative" sentiments) ].

End Globals.
End Dashboard.

(** ** telegram_bot.py: the chat bot *)

Module Bot.

(** The handles held by a [FinancialSentimentBot]. *)
Record bot : Type := mk_bot {
  newsapi : option newsapi_api;
  finnhub_client : option finnhub_api;
  sentiment_pipeline : option pipeline
}.

(** The dictionary [calculate_overall_sentiment] returns. *)
Record overall : Type := mk_overall {
  overall_sentiment : string;
  confidence : Q;
  positive_count : Z;
  negative_count : Z;
  neutral_count : Z;
  total_articles : Z
}.

(** A row of the data frame built in [analyze_command]. *)
Record row : Type := mk_row {
  row_headline : string;
  sentiment : string;
  row_confidence : Q
}.

(** What [analyze_command] puts into its result message. *)
Record report : Type := mk_report {
  api_source : string;
  summary_of : overall;
  positive_pct : Q;
  negative_pct : Q;
  neutral_pct : Q;
  most_positive : option string;
  most_negative : option string
}.

(** The three ways [analyze_command] answers. *)
Inductive reply : Type :=
| NoArticlesFound (api_used : string)
| Results (r : report)
| ErrorReply (e : exn).

Section Self.

Variable self : bot.
Variable isoformat_of_timestamp : Z -> result string.

(** [get_company_symbol(company_name)]: as in the dashboard, with the
    company name itself wherever the dashboard answers [None]. *)
Definition get_company_symbol (company_name : string)
  : list event * string :=
  match finnhub_client self with
  | None => ([], company_name)
  | Some client =>
      match symbol_lookup client company_name with
      | Ok search_results =>
          ([CallSymbolLookup company_name],
           match search_results with
           | Some res =>
               match us_stocks_of res with
               | r :: _ => symbol_or r company_name
               | [] =>
                   match find is_common_stock res with
                   | Some r => symbol_or r company_name
                   | None => company_name
                   end
               end
           | None => company_name
           end)
      | Raise _ =>
          ([CallSymbolLookup company_name; LogError "Error in symbol lookup"],
           company_name)
      end
  end.

(** The body of the loop over [news[:20]]. *)
Definition convert_news (a : raw_news) : result (option article) :=
  if Py.truthy_opt (headline a)
  then
    ts <- match datetime a with
          | Some t => Ok t
          | None => Raise KeyError
          end ;;
    published <- isoformat_of_timestamp ts ;;
    Ok (Some {| title := match headline a with Some h => h | None => "" end;
                description := match summary a with Some s => s | None => "" end;
                url := match news_url a with Some u => u | None => "" end;
                publishedAt := published;
                source := match news_source a with
                          | Some s => s
                          | None => "Finnhub"
                          end |})
  else Ok None.

(** [fetch_news_finnhub(company_symbol, days_back)]: at most the first
    20 entries are looked at. *)
Definition fetch_news_finnhub (company_symbol : string) (days_back : Z)
  : list event * list article :=
  match finnhub_client self with
  | None => ([], [])
  | Some client =>
      match (news <- company_news client company_symbol days_back ;;
             for_each convert_news (Py.slice_to news 20)) with
      | Ok converted =>
          ([CallCompanyNews company_symbol days_back],
           keep_some converted)
      | Raise _ =>
          ([CallCompanyNews company_symbol days_back;
            LogError "Error fetching news from Finnhub"], [])
      end
  end.

(** The names after which the query gets its region-qualified terms. *)
Definition newsapi_indian_companies : list string :=
  ["reliance"; "tcs"; "infosys"; "hdfc"; "wipro"; "icici"; "bharti"; "tata"].

(** [fetch_news_newsapi(company_name, days_back)]: entries without a
    title are dropped. *)
Definition fetch_news_newsapi (company_name : string) (days_back : Z)
  : list event * list article :=
  match newsapi self with
  | None => ([], [])
  | Some client =>
      let indian_terms :=
        if Py.any (fun word => Py.contains word (Py.lower company_name))
                  newsapi_indian_companies
        then " OR " ++ quoted (company_name ++ " India") ++ " OR "
             ++ quoted (company_name ++ " NSE") ++ " OR "
             ++ quoted (company_name ++ " BSE")
        else "" in
      let search_query :=
        quoted company_name ++ " OR " ++ quoted (company_name ++ " stock")
        ++ " OR " ++ quoted (company_name ++ " shares") ++ indian_terms in
      match get_everything client search_query days_back 20 with
      | Ok response =>
          ([CallGetEverything search_query days_back 20],
           if status response =? "ok"
           then filter (fun a => Py.truthy (title a)) (articles response)
           else [])
      | Raise _ =>
          ([CallGetEverything search_query days_back 20;
            LogError "Error fetching news from NewsAPI"], [])
      end
  end.

(** [analyze_sentiment(texts)]: the handle may be [None], and every
    exception is logged and turned into []. *)
Definition analyze_sentiment (texts : list string)
  : list event * list label_score :=
  match texts, sentiment_pipeline self with
  | [], _ => ([], [])
  | _ :: _, None => ([], [])
  | _ :: _, Some run =>
      match (results <- run texts ;; for_each normalize_result results) with
      | Ok processed_results => ([CallPipeline texts], processed_results)
      | Raise _ =>
          ([CallPipeline texts; LogError "Error analyzing sentiment"], [])
      end
  end.


(** [calculate_overall_sentiment(sentiment_results)]. *)
Definition calculate_overall_sentiment (sentiment_results : list label_score)
  : overall :=
  match sentiment_results with
  | [] =>
      {| overall_sentiment := "NEUTRAL";
         confidence := 0;
         positive_count := 0;
         negative_count := 0;
         neutral_count := 0;
         total_articles := 0 |}
  | _ :: _ =>
      let positive_count :=
        Py.sum_ones (fun r => label r =? "POSITIVE") sentiment_results in
      let negative_count :=
        Py.sum_ones (fun r => label r =? "NEGATIVE") sentiment_results in
      let neutral_count :=
        Py.sum_ones (fun r => label r =? "NEUTRAL") sentiment_results in
      let total_articles := Z.of_nat (List.length sentiment_results) in
      let overall_sentiment :=
        if (positive_count >? negative_count)%Z then "POSITIVE"
        else if (negative_count >? positive_count)%Z then "NEGATIVE"
        else "NEUTRAL" in
      let avg_confidence :=
        Py.sum_of score sentiment_results / inject_Z total_articles in
      {| overall_sentiment := overall_sentiment;
         confidence := avg_confidence;
         positive_count := positive_count;
         negative_count := negative_count;
         neutral_count := neutral_count;
         total_articles := total_articles |}
  end.

(** The names that send a request to NewsAPI. *)
Definition indian_companies : list string :=
  ["reliance"; "tcs"; "infosys"; "hdfc"; "wipro"; "icici"; "bharti";
   "airtel"; "sbi"; "maruti"].

(** The frame of [analyze_command], as the list of its rows: row [i]
    pairs [articles[i]] with [sentiment_results[i]], for [i] below the
    shorter length. The command builds it after the percentages, hence
    from at least one article and one sentiment (pandas gives a frame
    built from no row no columns at all). *)
Definition build_frame (found : list article)
    (sentiment_results : list label_score) : list row :=
  map (fun p => {| row_headline := title (fst p);
                   sentiment := label (snd p);
                   row_confidence := score (snd p) |})
      (combine found sentiment_results).

(** [df.nlargest(1, 'confidence')]: of the rows of greatest confidence,
    the first (pandas' default [keep='first']). *)
Definition nlargest1 (df : list row) : list row :=
  match df with
  | [] => []
  | r :: rest => [Py.max_from row_confidence r rest]
  end.

(** [df[df['sentiment'] == lbl].nlargest(1, 'confidence').iloc[0]]
    under the guard [len(df[df['sentiment'] == lbl]) > 0]. *)
Definition top_exemplar (lbl : string) (df : list row) : option row :=
  let selected := filter (fun r => sentiment r =? lbl) df in
  if (0 <? List.length selected)%nat then hd_error (nlargest1 selected)
  else None.

(** [f"{count/total*100:.1f}%"], before formatting. *)
Definition percentage (count total : Z) : result Q :=
  q <- Py.truediv (inject_Z count) (inject_Z total) ;; Ok (q * 100).

(** [f"{row['headline'][:100]}..."]. *)
Definition exemplar_line (r : row) : string :=
  Py.str_slice_to (row_headline r) 100 ++ "...".

(** The result message, computed from the articles and their
    sentiments. *)
Definition render (api_used : string) (found : list article)
    (sentiment_results : list label_score) : result report :=
  let overall_sentiment := calculate_overall_sentiment sentiment_results in
  ppos <- percentage (positive_count overall_sentiment)
                     (total_articles overall_sentiment) ;;
  pneg <- percentage (negative_count overall_sentiment)
                     (total_articles overall_sentiment) ;;
  pneu <- percentage (neutral_count overall_sentiment)
                     (total_articles overall_sentiment) ;;
  let df := build_frame found sentiment_results in
  Ok {| api_source := api_used;
        summary_of := overall_sentiment;
        positive_pct := ppos;
        negative_pct := pneg;
        neutral_pct := pneu;
        most_positive := option_map exemplar_line (top_exemplar "POSITIVE" df);
        most_negative := option_map exemplar_line (top_exemplar "NEGATIVE" df)
     |}.

(** The "Determine best API source" and "Fetch news" steps of
    [analyze_command]: the events, the articles and [api_used]. *)
Definition fetch_for_command (company_name : string)
  : list event * list article * string :=
  let use_newsapi :=
    Py.any (fun word => Py.contains word (Py.lower company_name))
           indian_companies in
  if use_newsapi then
    let (ev, found) := fetch_news_newsapi company_name 7 in
    (ev, found, "NewsAPI")
  else
    let (ev, company_symbol) := get_company_symbol company_name in
    let (ev', found) := fetch_news_finnhub company_symbol 7 in
    ((ev ++ ev')%list, found, "Finnhub").

(** [analyze_command] for a non-empty argument list, [company_name]
    being the joined arguments. The outer handler turns an exception
    into an error reply. *)
Definition analyze_command (company_name : string) : list event * reply :=
  let '(ev, found, api_used) := fetch_for_command company_name in
  match found with
  | [] => (ev, NoArticlesFound api_used)
  | _ :: _ =>
      let headlines := map title found in
      let (ev', sentiment_results) := analyze_sentiment headlines in
      match render api_used found sentiment_results with
      | Ok r => ((ev ++ ev')%list, Results r)
      | Raise e =>
          ((ev ++ ev' ++ [LogError "Error in analyze_command"])%list,
           ErrorReply e)
      end
  end.

End Self.

(** What [__init__] and [_initialize_apis] read and call: the two keys
    of the environment ([None] when the variable is unset), the two
    client constructors and the loading of the model. *)
Record environment : Type := mk_environment {
  newsapi_key : option string;
  finnhub_key : option string;
  NewsApiClient : string -> result newsapi_api;
  finnhub_Client : string -> result finnhub_api;
  load_pipeline : result pipeline
}.

(** [if key: handle = construct(key)], the handle staying [None]
    without a key. *)
Definition construct_if_key {A : Type} (key : option string)
    (construct : string -> result A) : result (option A) :=
  match key with
  | Some k =>
      if Py.truthy k then (c <- construct k ;; Ok (Some c)) else Ok None
  | None => Ok None
  end.

(** [__init__] followed by [_initialize_apis]: the handles start as
    [None] and are set in the order NewsAPI, Finnhub, model inside one
    [try]; the first exception is logged and ends the initialisation. *)
Definition _initialize_apis (env : environment) : list event * bot :=
  match construct_if_key (newsapi_key env) (NewsApiClient env) with
  | Raise _ =>
      ([LogError "Error initializing APIs"],
       {| newsapi := None; finnhub_client := None;
          sentiment_pipeline := None |})
  | Ok n =>
      match construct_if_key (finnhub_key env) (finnhub_Client env) with
      | Raise _ =>
          ([LogError "Error initializing APIs"],
           {| newsapi := n; finnhub_client := None;
              sentiment_pipeline := None |})
      | Ok f =>
          match load_pipeline env with
          | Raise _ =>
              ([LogError "Error initializing APIs"],
               {| newsapi := n; finnhub_client := f;
                  sentiment_pipeline := None |})
          | Ok p =>
              ([], {| newsapi := n; finnhub_client := f;
                      sentiment_pipeline := Some p |})
          end
      end
  end.

Section Handlers.

Variable self : bot.
Variable isoformat_of_timestamp : Z -> result string.

(** [analyze_command] from its first line: without arguments the usage
    text is sent ([None]); otherwise the arguments, joined by single
    spaces, are the company name. *)
Definition analyze_command_args (args : list string)
  : list event * option reply :=
  match args with
  | [] => ([], None)
  | _ :: _ =>
      let company_name := Py.join " " args in
      let (ev, r) := analyze_command self isoformat_of_timestamp company_name in
      (ev, Some r)
  end.

(** [message_handler] on the text of a message of ASCII characters: a
    text of at most three words that does not start with a slash is
    analysed ([Some], with the outcome of [analyze_command]); any other
    text gets the greeting ([None]). *)
Definition message_handler (message_text : string)
  : option (list event * option reply) :=
  let text := Py.strip message_text in
  if (List.length (Py.split text) <=? 3)%nat && negb (Py.startswith text "/")
  then Some (analyze_command_args (Py.split text))
  else None.

End Handlers.

End Bot.

(** * Vocabulary of the properties *)

(** [r] sits at index [i] of [xs], no element has a greater key, and
    every element before [i] has a strictly smaller one. *)
Definition first_max_at {A : Type} (k : A -> Q) (xs : list A) (i : nat)
    (r : A) : Prop :=
  nth_error xs i = Some r /\
  forall j x, nth_error xs j = Some x ->
              k x <= k r /\ ((j < i)%nat -> k x < k r).

(** The closed set of labels the mapping table knows. *)
Definition recognised_labels : list string :=
  ["LABEL_0"; "LABEL_1"; "LABEL_2"; "NEGATIVE"; "NEUTRAL"; "POSITIVE"].

(** The three canonical sentiment labels. *)
Definition canonical_labels : list string :=
  ["POSITIVE"; "NEGATIVE"; "NEUTRAL"].

(** A model result from which a record can be taken: a per-class list
    has at least one entry. *)
Definition has_record (res : model_result) : Prop :=
  match res with
  | Single _ => True
  | PerClass rs => rs <> []
  end.

(** The record the adapter works on: the single record itself, or the
    first record of greatest score of a per-class list. *)
Inductive chosen : model_result -> label_score -> Prop :=
| chosen_single (r : label_score) : chosen (Single r) r
| chosen_first_max (rs : list label_score) (i : nat) (r : label_score) :
    first_max_at score rs i r -> chosen (PerClass rs) r.

(** A bot whose model handle is the loaded model [run]. *)
Definition bot_with (run : pipeline) : Bot.bot :=
  {| Bot.newsapi := None;
     Bot.finnhub_client := None;
     Bot.sentiment_pipeline := Some run |}.

(** A model that answers an empty per-class list for the one text. *)
Definition empty_per_class_run : pipeline := fun _ => Ok [PerClass []].

(** A model that answers a positional tag for the first text and a
    per-class list for the second. *)
Definition two_results_run : pipeline :=
  fun _ => Ok [Single {| label := "LABEL_2"; score := 87 # 100 |};
               PerClass [ {| label := "negative"; score := 6 # 10 |};
                          {| label := "positive"; score := 4 # 10 |} ]].

(** What [sentiment_counts.idxmax()] of the dashboard may answer for
    the column [sentiments]: a label that occurs in it, no other label
    occurring more often. Which of several such labels pandas picks is
    left open. *)
Definition idxmax_answer (sentiments : list string) (lbl : string) : Prop :=
  In lbl sentiments /\
  forall other,
    (Dashboard.value_count other sentiments
     <= Dashboard.value_count lbl sentiments)%Z.

(** Number of results carrying the label [lbl]. *)
Definition count_label (lbl : string) (rs : list label_score) : nat :=
  List.length (filter (fun r => label r =? lbl) rs).

(** Sum of the confidences, by recursion on the list. *)
Fixpoint total_score (rs : list label_score) : Q :=
  match rs with
  | [] => 0
  | r :: rs' => score r + total_score rs'
  end.

(** One positive article among a majority of neutral ones. *)
Definition neutral_majority : list label_score :=
  [ {| label := "POSITIVE"; score := 9 # 10 |};
    {| label := "NEUTRAL"; score := 5 # 10 |};
    {| label := "NEUTRAL"; score := 6 # 10 |} ].

(** The five articles of the end-to-end scenario. *)
Definition five_articles : list label_score :=
  [ {| label := "POSITIVE"; score := 9 # 10 |};
    {| label := "POSITIVE"; score := 8 # 10 |};
    {| label := "NEGATIVE"; score := 7 # 10 |};
    {| label := "NEUTRAL"; score := 5 # 10 |};
    {| label := "NEUTRAL"; score := 6 # 10 |} ].

(** [r] is the row at index [i] of [df], carries [lbl], no row carrying
    [lbl] has a greater confidence, and every earlier row carrying [lbl]
    has a strictly smaller one. *)
Definition first_top_at (lbl : string) (df : list Bot.row) (i : nat)
    (r : Bot.row) : Prop :=
  nth_error df i = Some r /\
  Bot.sentiment r = lbl /\
  forall j x, nth_error df j = Some x -> Bot.sentiment x = lbl ->
              Bot.row_confidence x <= Bot.row_confidence r /\
              ((j < i)%nat -> Bot.row_confidence x < Bot.row_confidence r).

(** Three positive articles A, B, C with confidences 0.6, 0.9, 0.9. *)
Definition three_positive_rows : list Bot.row :=
  [ {| Bot.row_headline := "A"; Bot.sentiment := "POSITIVE";
       Bot.row_confidence := 6 # 10 |};
    {| Bot.row_headline := "B"; Bot.sentiment := "POSITIVE";
       Bot.row_confidence := 9 # 10 |};
    {| Bot.row_headline := "C"; Bot.sentiment := "POSITIVE";
       Bot.row_confidence := 9 # 10 |} ].

(** [article.get('headline')] is truthy. *)
Definition has_headline (a : raw_news) : bool := Py.truthy_opt (headline a).

(** The headline as a string, empty when the key is missing. *)
Definition headline_text (a : raw_news) : string :=
  match headline a with
  | Some h => h
  | None => ""
  end.


(** A clock that converts every timestamp. *)
Definition sample_clock : Z -> result string :=
  fun _ => Ok "2024-01-01T00:00:00".

(** A provider entry with the headline [h] and a timestamp. *)
Definition news_item (h : option string) : raw_news :=
  {| headline := h; summary := None; news_url := None;
     datetime := Some 0%Z; news_source := None |}.

(** A provider whose symbol search finds nothing and whose news list is
    [news] for every symbol. *)
Definition finnhub_serving (news : list raw_news) : finnhub_api :=
  {| symbol_lookup := fun _ => Ok None;
     company_news := fun _ _ => Ok news |}.


(** The three ways the symbol search can fail to name a common stock:
    the provider raises, the response is empty or has no result list, or
    no candidate of the list is a common stock (an empty list among
    them). *)
Inductive resolution_fails (client : finnhub_api) (company : string) : Prop :=
| lookup_raises (e : exn) :
    symbol_lookup client company = Raise e ->
    resolution_fails client company
| lookup_without_results :
    symbol_lookup client company = Ok None ->
    resolution_fails client company
| lookup_without_common_stock (res : list candidate) :
    symbol_lookup client company = Ok (Some res) ->
    (forall r, In r res -> is_common_stock r = false) ->
    resolution_fails client company.

(** A message to the user or the log, as opposed to a provider or model
    call. *)
Definition is_notice (ev : event) : Prop :=
  match ev with
  | UiWarning _ | UiError _ | LogError _ => True
  | _ => False
  end.

(** A bot whose provider knows no symbol for any name, serves one
    article for every symbol, and whose model finds it positive. *)
Definition acme_bot : Bot.bot :=
  {| Bot.newsapi := None;
     Bot.finnhub_client :=
       Some (finnhub_serving [news_item (Some "Acme wins contract")]);
     Bot.sentiment_pipeline :=
       Some (fun _ => Ok [Single {| label := "LABEL_2"; score := 9 # 10 |}])
  |}.

(** The article made of the provider entry "Acme wins contract". *)
Definition acme_article : article :=
  {| title := "Acme wins contract"; description := ""; url := "";
     publishedAt := "2024-01-01T00:00:00"; source := "Finnhub" |}.

(** Five fetched articles, for the five sentiments of the end-to-end
    scenario. *)
Definition five_found : list article :=
  map (fun t => {| title := t; description := ""; url := "";
                   publishedAt := "2024-01-01T00:00:00";
                   source := "Finnhub" |})
      ["Record profit"; "New plant opens"; "Recall announced";
       "Annual meeting held"; "Board unchanged"].

(** A bot whose model failed to load: the handle is [None]. *)
Definition bot_without_model : Bot.bot :=
  {| Bot.newsapi := None;
     Bot.finnhub_client :=
       Some (finnhub_serving [news_item (Some "Acme wins contract")]);
     Bot.sentiment_pipeline := None |}.

(** A headline-bearing entry whose timestamp is missing or does not
    convert. *)
Definition unconvertible (iso : Z -> result string) (a : raw_news) : Prop :=
  has_headline a = true /\
  (datetime a = None \/ exists t e, datetime a = Some t /\ iso t = Raise e).

(** An event a request for [source] may cause in the dashboard: calls
    of the provider named by [source] and notices, no model call. *)
Definition event_of_source (source : string) (ev : event) : Prop :=
  match ev with
  | CallSymbolLookup _ | CallCompanyNews _ _ => source = "finnhub"
  | CallGetEverything _ _ _ => source = "newsapi"
  | CallPipeline _ => False
  | UiWarning _ | UiError _ | LogError _ => True
  end.



(** A bot that holds no provider client. *)
Definition bot_without_clients (model : option pipeline) : Bot.bot :=
  {| Bot.newsapi := None; Bot.finnhub_client := None;
     Bot.sentiment_pipeline := model |}.

(** The label is one of the three the aggregate counts. *)
Definition is_canonical (r : label_score) : bool :=
  (label r =? "POSITIVE") || (label r =? "NEGATIVE") || (label r =? "NEUTRAL").

(** An ASCII character. *)
Definition is_ascii (c : ascii) : bool := (nat_of_ascii c <? 128)%nat.

(** Text of ASCII characters. *)
Fixpoint ascii_text (s : string) : Prop :=
  match s with
  | EmptyString => True
  | String c s' => is_ascii c = true /\ ascii_text s'
  end.

(** A word: not empty, of ASCII characters other than white space. *)
Fixpoint spaceless (s : string) : Prop :=
  match s with
  | EmptyString => True
  | String c s' =>
      Py.is_space c = false /\ is_ascii c = true /\ spaceless s'
  end.

Definition is_word (w : string) : Prop := w <> "" /\ spaceless w.

(** A provider that knows a foreign and a domestic listing. *)
Definition two_listings : finnhub_api :=
  {| symbol_lookup := fun _ =>
       Ok (Some [ {| cand_type := Some "Common Stock";
                     cand_symbol := Some "RELIANCE.NS" |};
                  {| cand_type := Some "ETF"; cand_symbol := Some "RELX" |};
                  {| cand_type := Some "Common Stock";
                     cand_symbol := Some "REL" |} ]);
     company_news := fun _ _ => Ok [] |}.

(** Two proper entries and one without timestamp. *)
Definition news_with_gap : list raw_news :=
  [ news_item (Some "A");
    {| headline := Some "B"; summary := None; news_url := None;
       datetime := None; news_source := None |};
    news_item (Some "C") ].

(** An environment with both keys set, in which the NewsAPI client
    cannot be constructed. *)
Definition newsapi_down : Bot.environment :=
  {| Bot.newsapi_key := Some "n-key";
     Bot.finnhub_key := Some "f-key";
     Bot.NewsApiClient := fun _ => Raise ProviderError;
     Bot.finnhub_Client :=
       fun _ => Ok (finnhub_serving [news_item (Some "Acme wins contract")]);
     Bot.load_pipeline := Ok two_results_run |}.

(** * Properties *)

(** ** Python helpers *)

Lemma Qltb_lt (a b : Q) : Py.Qltb a b = true <-> a < b.
Proof.
  unfold Py.Qltb. rewrite negb_true_iff. split.
  - intros H. apply Qnot_le_lt. intros Hle.
    apply Qle_bool_iff in Hle. congruence.
  - intros H. destruct (Qle_bool b a) eqn:E; [|reflexivity].
    apply Qle_bool_iff in E. exfalso. exact (Qlt_not_le _ _ H E).
Qed.

Lemma Qltb_ge (a b : Q) : Py.Qltb a b = false <-> b <= a.
Proof.
  unfold Py.Qltb. rewrite negb_false_iff. apply Qle_bool_iff.
Qed.

Lemma max_from_first_max {A : Type} (k : A -> Q) (xs : list A) :
  forall best, exists i, first_max_at k (best :: xs) i (Py.max_from k best xs).
Proof.
  induction xs as [|x xs IH]; intros best; simpl.
  - exists 0%nat. split; [reflexivity|].
    intros [|j] y Hj; simpl in Hj.
    + injection Hj as <-. split; [apply Qle_refl | lia].
    + destruct j; discriminate.
  - destruct (Py.Qltb (k best) (k x)) eqn:E.
    + apply Qltb_lt in E.
      destruct (IH x) as [i [Hi Hall]].
      exists (S i). split; [exact Hi|].
      intros [|j] y Hj; simpl in Hj.
      * injection Hj as <-.
        destruct (Hall 0%nat x eq_refl) as [Hle _].
        assert (k best < k (Py.max_from k x xs))
          by (eapply Qlt_le_trans; eauto).
        split; [apply Qlt_le_weak; assumption | intros _; assumption].
      * destruct (Hall j y Hj) as [Hle Hlt].
        split; [exact Hle | intros; apply Hlt; lia].
    + apply Qltb_ge in E.
      destruct (IH best) as [i [Hi Hall]].
      destruct i as [|i].
      * exists 0%nat. simpl in Hi. split; [exact Hi|].
        injection Hi as Hi.
        intros [|[|j]] y Hj; simpl in Hj.
        -- exact (Hall 0%nat y Hj).
        -- injection Hj as <-. rewrite <- Hi. split; [exact E | lia].
        -- split; [|lia]. exact (proj1 (Hall (S j) y Hj)).
      * exists (S (S i)). split; [exact Hi|].
        destruct (Hall 0%nat best eq_refl) as [Hb Hblt].
        intros [|[|j]] y Hj; simpl in Hj.
        -- injection Hj as <-. split; [exact Hb | intros _; apply Hblt; lia].
        -- injection Hj as <-.
           assert (k best < k (Py.max_from k best xs)) by (apply Hblt; lia).
           assert (k x < k (Py.max_from k best xs))
             by (eapply Qle_lt_trans; eauto).
           split; [apply Qlt_le_weak; assumption | intros _; assumption].
        -- destruct (Hall (S j) y Hj) as [Hle Hlt].
           split; [exact Hle | intros; apply Hlt; lia].
Qed.

(** [first_max_at] names one element: index and value are determined. *)
Lemma first_max_at_unique {A : Type} (k : A -> Q) (xs : list A)
    (i i' : nat) (r r' : A) :
  first_max_at k xs i r -> first_max_at k xs i' r' -> i = i' /\ r = r'.
Proof.
  intros [Hi Hall] [Hi' Hall'].
  assert (i = i').
  { destruct (Nat.lt_trichotomy i i') as [Hlt | [Heq | Hgt]]; [|exact Heq|].
    - destruct (Hall' i r Hi) as [_ H1]. specialize (H1 Hlt).
      destruct (Hall i' r' Hi') as [H2 _].
      exfalso. exact (Qlt_not_le _ _ H1 H2).
    - destruct (Hall i' r' Hi') as [_ H1]. specialize (H1 Hgt).
      destruct (Hall' i r Hi) as [H2 _].
      exfalso. exact (Qlt_not_le _ _ H1 H2). }
  subst i'. split; [reflexivity | congruence].
Qed.

Example upper_example : Py.upper "label_2" = "LABEL_2".
Proof. reflexivity. Qed.

Example lower_example : Py.lower "Tata Motors" = "tata motors".
Proof. reflexivity. Qed.

Example title_example :
  Py.title "POSITIVE" = "Positive" /\ Py.title "LABEL_0" = "Label_0".
Proof. split; reflexivity. Qed.

Example contains_example :
  Py.contains "tcs" "my tcs shares" = true /\
  Py.contains "." "RELIANCE.NS" = true /\
  Py.contains "." "AAPL" = false.
Proof. repeat split. Qed.

Example slice_to_example :
  Py.slice_to [1; 2; 3]%Z 2 = [1; 2]%Z /\
  Py.slice_to [1; 2; 3]%Z 5 = [1; 2; 3]%Z /\
  Py.slice_to [1; 2; 3]%Z (-1) = [1; 2]%Z.
Proof. repeat split. Qed.

Example max_by_example :
  Py.max_by score [ {| label := "a"; score := 1 # 4 |};
                    {| label := "b"; score := 1 # 2 |};
                    {| label := "c"; score := 2 # 4 |} ]
  = Ok {| label := "b"; score := 1 # 2 |}.
Proof. reflexivity. Qed.

(** ** Label normalisation *)

(** Refutes the membership of a given string in a given list. *)
Ltac not_a_member :=
  let H := fresh "H" in
  cbv; intros H;
  repeat (destruct H as [H | H]; [discriminate H|]); exact H.

Lemma dict_get_unrecognised (lbl : string) :
  ~ In lbl recognised_labels -> dict_get label_mapping lbl lbl = lbl.
Proof.
  intros H. unfold label_mapping, dict_get.
  repeat match goal with
         | |- context [String.eqb ?a lbl] =>
             let E := fresh "E" in
             destruct (String.eqb_spec a lbl) as [E|E];
             [exfalso; apply H; rewrite <- E; unfold recognised_labels;
              cbn [In]; auto 10|]
         end.
  reflexivity.
Qed.

Lemma normalize_single (r : label_score) :
  normalize_result (Single r)
  = Ok {| label := dict_get label_mapping (Py.upper (label r))
                            (Py.upper (label r));
          score := score r |}.
Proof. reflexivity. Qed.

Lemma normalize_per_class (rs : list label_score) :
  rs <> [] ->
  exists i r, first_max_at score rs i r /\
              normalize_result (PerClass rs) = normalize_result (Single r).
Proof.
  destruct rs as [|r0 rs]; [congruence|]. intros _.
  destruct (max_from_first_max score rs r0) as [i Hi].
  exists i, (Py.max_from score r0 rs). split; [exact Hi | reflexivity].
Qed.

Lemma has_record_chosen (res : model_result) :
  has_record res -> exists r, chosen res r.
Proof.
  destruct res as [r | [|r0 rs]]; simpl; intros H.
  - exists r. constructor.
  - congruence.
  - destruct (max_from_first_max score rs r0) as [i Hi].
    eexists. econstructor. exact Hi.
Qed.

Lemma normalize_chosen (res : model_result) (r : label_score) :
  chosen res r ->
  normalize_result res
  = Ok {| label := dict_get label_mapping (Py.upper (label r))
                            (Py.upper (label r));
          score := score r |}.
Proof.
  intros [r0 | rs i r0 Hmax].
  - apply normalize_single.
  - assert (Hne : rs <> []).
    { destruct Hmax as [Hi _]. intros ->. destruct i; discriminate. }
    destruct (normalize_per_class rs Hne) as [i' [r' [Hmax' Heq]]].
    destruct (first_max_at_unique score rs i i' r0 r' Hmax Hmax') as [_ <-].
    rewrite Heq. apply normalize_single.
Qed.

Lemma normalize_has_record (res : model_result) :
  has_record res -> exists out, normalize_result res = Ok out.
Proof.
  destruct res as [r | [|r0 rs]]; simpl; intros H.
  - eexists. reflexivity.
  - congruence.
  - eexists. reflexivity.
Qed.

Lemma for_each_has_record (results : list model_result) :
  Forall has_record results ->
  exists out, for_each normalize_result results = Ok out.
Proof.
  induction 1 as [|res results Hres _ [out IH]].
  - exists []. reflexivity.
  - destruct (normalize_has_record res Hres) as [o Ho].
    exists (o :: out). simpl. rewrite Ho. simpl. rewrite IH. reflexivity.
Qed.

(** The loop keeps the results aligned with its input. *)
Lemma for_each_length {A B : Type} (f : A -> result B) (xs : list A)
    (ys : list B) :
  for_each f xs = Ok ys -> List.length ys = List.length xs.
Proof.
  revert ys. induction xs as [|x xs IH]; simpl; intros ys H.
  - injection H as <-. reflexivity.
  - destruct (f x); simpl in H; [|discriminate].
    destruct (for_each f xs) as [ys'|]; simpl in H; [|discriminate].
    injection H as <-. simpl. f_equal. apply IH. reflexivity.
Qed.

Lemma for_each_nth {A B : Type} (f : A -> result B) (xs : list A)
    (ys : list B) :
  for_each f xs = Ok ys ->
  forall i x, nth_error xs i = Some x ->
  exists y, nth_error ys i = Some y /\ f x = Ok y.
Proof.
  revert ys. induction xs as [|a xs IH]; intros ys H i x Hi.
  - destruct i; discriminate.
  - cbn [for_each] in H. destruct (f a) as [b|] eqn:Ea; cbn [bind] in H;
      [|discriminate].
    destruct (for_each f xs) as [ys'|]; cbn [bind] in H; [|discriminate].
    injection H as <-. destruct i as [|i]; cbn [nth_error] in *.
    + injection Hi as <-. exists b. split; [reflexivity | exact Ea].
    + exact (IH ys' eq_refl i x Hi).
Qed.

(** X20. The dashboard's adapter answers index for index: result [i] of
    the model becomes output [i], normalised. *)
Lemma analyze_sentiment_aligned (run : pipeline) (texts : list string)
    (results : list model_result) (out : list label_score) :
  texts <> [] ->
  run texts = Ok results ->
  snd (Dashboard.analyze_sentiment run texts) = Ok out ->
  List.length out = List.length results /\
  forall i res, nth_error results i = Some res ->
  exists o, nth_error out i = Some o /\ normalize_result res = Ok o.
Proof.
  intros Hne Hrun Hout. destruct texts as [|t texts]; [congruence|].
  unfold Dashboard.analyze_sentiment in Hout. cbn [snd] in Hout.
  rewrite Hrun in Hout. cbn [bind] in Hout. split.
  - exact (for_each_length _ _ _ Hout).
  - exact (for_each_nth _ _ _ Hout).
Qed.

Example label_2_example :
  normalize_result (Single {| label := "LABEL_2"; score := 87 # 100 |})
  = Ok {| label := "POSITIVE"; score := 87 # 100 |}.
Proof. reflexivity. Qed.

Example negative_example :
  normalize_result (Single {| label := "NEGATIVE"; score := 55 # 100 |})
  = Ok {| label := "NEGATIVE"; score := 55 # 100 |}.
Proof. reflexivity. Qed.

Example lower_case_example :
  normalize_result (Single {| label := "positive"; score := 9 # 10 |})
  = Ok {| label := "POSITIVE"; score := 9 # 10 |}.
Proof. reflexivity. Qed.

Example per_class_example :
  normalize_result
    (PerClass [ {| label := "negative"; score := 1 # 10 |};
                {| label := "neutral"; score := 2 # 10 |};
                {| label := "positive"; score := 7 # 10 |} ])
  = Ok {| label := "POSITIVE"; score := 7 # 10 |}.
Proof. reflexivity. Qed.

(** C7. For a model result the adapter works on the single record, or
    on the first record of greatest score of a per-class list; it keeps
    that record's score as the confidence, maps the positional tags
    LABEL_0, LABEL_1, LABEL_2 to NEGATIVE, NEUTRAL, POSITIVE, and hands
    the three class names on in upper case whatever the case of the
    input. *)
Theorem normalize_result_mapping (res : model_result) :
  has_record res ->
  exists r l,
    chosen res r /\
    normalize_result res = Ok {| label := l; score := score r |} /\
    (Py.upper (label r) = "LABEL_0" -> l = "NEGATIVE") /\
    (Py.upper (label r) = "LABEL_1" -> l = "NEUTRAL") /\
    (Py.upper (label r) = "LABEL_2" -> l = "POSITIVE") /\
    (In (Py.upper (label r)) canonical_labels -> l = Py.upper (label r)).
Proof.
  intros Hrec. destruct (has_record_chosen res Hrec) as [r Hr].
  exists r. eexists. split; [exact Hr|].
  split; [apply normalize_chosen; exact Hr|].
  repeat split; intros H.
  - rewrite H. reflexivity.
  - rewrite H. reflexivity.
  - rewrite H. reflexivity.
  - unfold canonical_labels in H. cbn [In] in H.
    destruct H as [H | [H | [H | []]]]; rewrite <- H; reflexivity.
Qed.

Lemma normalize_result_mapping_witness :
  exists r l,
    chosen (Single {| label := "label_2"; score := 87 # 100 |}) r /\
    normalize_result (Single {| label := "label_2"; score := 87 # 100 |})
    = Ok {| label := l; score := score r |} /\
    (Py.upper (label r) = "LABEL_0" -> l = "NEGATIVE") /\
    (Py.upper (label r) = "LABEL_1" -> l = "NEUTRAL") /\
    (Py.upper (label r) = "LABEL_2" -> l = "POSITIVE") /\
    (In (Py.upper (label r)) canonical_labels -> l = Py.upper (label r)).
Proof.
  apply (normalize_result_mapping
           (Single {| label := "label_2"; score := 87 # 100 |})).
  exact I.
Defined.

(** ** Labels outside the mapping table *)

Example mixed_label_dashboard :
  Dashboard.analyze_sentiment
    (fun _ => Ok [Single {| label := "mixed"; score := 1 # 2 |}])
    ["Shares move sideways"]
  = ([CallPipeline ["Shares move sideways"]],
     Ok [{| label := "MIXED"; score := 1 # 2 |}]).
Proof. reflexivity. Qed.

(** C2, as stated, fails: a model answer whose upper-cased label, MIXED,
    is outside the closed set makes neither front end fail; both return
    the label MIXED in their result. *)
Lemma unrecognised_label_not_an_error :
  ~ In (Py.upper "mixed") recognised_labels /\
  snd (Dashboard.analyze_sentiment
         (fun _ => Ok [Single {| label := "mixed"; score := 1 # 2 |}])
         ["Shares move sideways"])
  = Ok [{| label := "MIXED"; score := 1 # 2 |}] /\
  snd (Bot.analyze_sentiment
         {| Bot.newsapi := None; Bot.finnhub_client := None;
            Bot.sentiment_pipeline :=
              Some (fun _ => Ok [Single {| label := "mixed";
                                           score := 1 # 2 |}]) |}
         ["Shares move sideways"])
  = [{| label := "MIXED"; score := 1 # 2 |}].
Proof.
  split; [|split; reflexivity]. not_a_member.
Qed.

(** C2, amended. A record whose upper-cased label lies outside the closed
    set is not an error: normalisation succeeds and hands the upper-cased
    label on unchanged, with the record's score. *)
Theorem unrecognised_label_passes_through (res : model_result)
    (r : label_score) :
  chosen res r ->
  ~ In (Py.upper (label r)) recognised_labels ->
  normalize_result res
  = Ok {| label := Py.upper (label r); score := score r |}.
Proof.
  intros Hr H. rewrite (normalize_chosen res r Hr).
  rewrite (dict_get_unrecognised _ H). reflexivity.
Qed.

Lemma unrecognised_label_passes_through_witness :
  normalize_result (Single {| label := "mixed"; score := 1 # 2 |})
  = Ok {| label := "MIXED"; score := 1 # 2 |}.
Proof.
  apply (unrecognised_label_passes_through
           (Single {| label := "mixed"; score := 1 # 2 |})
           {| label := "mixed"; score := 1 # 2 |}).
  - constructor.
  - not_a_member.
Defined.

(** ** The two copies of the sentiment normalisation *)

(** What the bot returns is what the dashboard returns, with an
    exception replaced by the empty list. *)
Lemma bot_is_dashboard_with_handler (self : Bot.bot) (run : pipeline)
    (texts : list string) :
  Bot.sentiment_pipeline self = Some run ->
  snd (Bot.analyze_sentiment self texts)
  = match snd (Dashboard.analyze_sentiment run texts) with
    | Ok out => out
    | Raise _ => []
    end.
Proof.
  intros Hrun. unfold Bot.analyze_sentiment, Dashboard.analyze_sentiment.
  rewrite Hrun. destruct texts as [|t texts]; [reflexivity|].
  cbn [snd].
  destruct (results <- run (t :: texts) ;; for_each normalize_result results);
    reflexivity.
Qed.

(** On an empty per-class list, which a three-class model does not
    return, [max] raises in both copies; the dashboard lets the
    ValueError escape while the bot returns the empty list. *)
Lemma empty_per_class_list_separates_front_ends :
  empty_per_class_run ["Quarterly results"] = Ok [PerClass []] /\
  snd (Dashboard.analyze_sentiment empty_per_class_run ["Quarterly results"])
  = Raise ValueError /\
  snd (Bot.analyze_sentiment (bot_with empty_per_class_run)
                             ["Quarterly results"]) = [].
Proof. repeat split. Qed.

(** C10. With the bot's model handle initialised and a model call that
    raises nothing, the two [analyze_sentiment]s return the same
    sequence for the same model results, each a single record or a list
    of per-class records (of at least one class). *)
Theorem analyze_sentiment_front_ends_agree (self : Bot.bot) (run : pipeline)
    (texts : list string) (results : list model_result) :
  Bot.sentiment_pipeline self = Some run ->
  run texts = Ok results ->
  Forall has_record results ->
  snd (Dashboard.analyze_sentiment run texts)
  = Ok (snd (Bot.analyze_sentiment self texts)).
Proof.
  intros Hself Hrun Hrec.
  rewrite (bot_is_dashboard_with_handler self run texts Hself).
  unfold Dashboard.analyze_sentiment.
  destruct texts as [|t texts]; [reflexivity|].
  cbn [snd]. rewrite Hrun. cbn [bind].
  destruct (for_each_has_record results Hrec) as [out Hout].
  rewrite Hout. reflexivity.
Qed.

Lemma analyze_sentiment_front_ends_agree_witness :
  snd (Dashboard.analyze_sentiment two_results_run
                                   ["Record profit"; "Plant closes"])
  = Ok (snd (Bot.analyze_sentiment (bot_with two_results_run)
                                   ["Record profit"; "Plant closes"])).
Proof.
  apply (analyze_sentiment_front_ends_agree (bot_with two_results_run)
           two_results_run ["Record profit"; "Plant closes"]
           [Single {| label := "LABEL_2"; score := 87 # 100 |};
            PerClass [ {| label := "negative"; score := 6 # 10 |};
                       {| label := "positive"; score := 4 # 10 |} ]]).
  - reflexivity.
  - reflexivity.
  - repeat constructor; discriminate.
Defined.

(** ** Aggregation *)

Lemma sum_ones_length {A : Type} (p : A -> bool) (xs : list A) :
  Py.sum_ones p xs = Z.of_nat (List.length (filter p xs)).
Proof.
  induction xs as [|x xs IH]; [reflexivity|].
  cbn [Py.sum_ones filter].
  destruct (p x); cbn [List.length]; rewrite IH; lia.
Qed.

Lemma fold_left_sum (rs : list label_score) (acc : Q) :
  fold_left (fun a r => a + score r) rs acc == acc + total_score rs.
Proof.
  revert acc. induction rs as [|r rs IH]; intros acc; simpl.
  - ring.
  - rewrite IH. ring.
Qed.

Lemma sum_of_total_score (rs : list label_score) :
  Py.sum_of score rs == total_score rs.
Proof.
  unfold Py.sum_of. rewrite fold_left_sum. ring.
Qed.

Lemma total_score_bounds (rs : list label_score) :
  Forall (fun r => 0 <= score r /\ score r <= 1) rs ->
  0 <= total_score rs /\ total_score rs <= inject_Z (Z.of_nat (List.length rs)).
Proof.
  induction 1 as [|r rs [H0 H1] _ [IH0 IH1]].
  - simpl. split; apply Qle_refl.
  - cbn [total_score List.length]. rewrite Nat2Z.inj_succ.
    unfold Z.succ. rewrite inject_Z_plus. split.
    + replace 0 with (0 + 0) by reflexivity. apply Qplus_le_compat; assumption.
    + rewrite Qplus_comm. apply Qplus_le_compat; assumption.
Qed.

Lemma canonical_counts (rs : list label_score) :
  Forall (fun r => In (label r) canonical_labels) rs ->
  (count_label "POSITIVE" rs + count_label "NEGATIVE" rs
   + count_label "NEUTRAL" rs = List.length rs)%nat.
Proof.
  unfold count_label.
  induction 1 as [|r rs Hr _ IH]; [reflexivity|].
  cbn [filter]. unfold canonical_labels in Hr. cbn [In] in Hr.
  destruct Hr as [E | [E | [E | []]]]; rewrite <- E; cbn; lia.
Qed.

(** The counts can only fall short of the total: a label outside the
    canonical three is counted nowhere. *)
Lemma counts_at_most_total (rs : list label_score) :
  (count_label "POSITIVE" rs + count_label "NEGATIVE" rs
   + count_label "NEUTRAL" rs <= List.length rs)%nat.
Proof.
  unfold count_label. induction rs as [|r rs IH]; [simpl; lia|].
  cbn [filter List.length].
  destruct (String.eqb_spec (label r) "POSITIVE") as [E|E].
  - rewrite E. cbn. lia.
  - destruct (String.eqb_spec (label r) "NEGATIVE") as [E'|E'].
    + rewrite E'. cbn. lia.
    + destruct (label r =? "NEUTRAL"); cbn [List.length]; lia.
Qed.

Lemma overall_counts (rs : list label_score) :
  let o := Bot.calculate_overall_sentiment rs in
  Bot.positive_count o = Z.of_nat (count_label "POSITIVE" rs) /\
  Bot.negative_count o = Z.of_nat (count_label "NEGATIVE" rs) /\
  Bot.neutral_count o = Z.of_nat (count_label "NEUTRAL" rs) /\
  Bot.total_articles o = Z.of_nat (List.length rs).
Proof.
  destruct rs as [|r rs]; [repeat split|].
  unfold Bot.calculate_overall_sentiment, count_label.
  cbn [Bot.positive_count Bot.negative_count Bot.neutral_count
       Bot.total_articles].
  rewrite !sum_ones_length. repeat split.
Qed.

Lemma overall_confidence (r : label_score) (rs : list label_score) :
  Bot.confidence (Bot.calculate_overall_sentiment (r :: rs))
  == total_score (r :: rs) / inject_Z (Z.of_nat (List.length (r :: rs))).
Proof.
  unfold Bot.calculate_overall_sentiment. cbn [Bot.confidence].
  rewrite sum_of_total_score. reflexivity.
Qed.

Example five_articles_aggregate :
  let o := Bot.calculate_overall_sentiment five_articles in
  Bot.positive_count o = 2%Z /\ Bot.negative_count o = 1%Z /\
  Bot.neutral_count o = 2%Z /\ Bot.total_articles o = 5%Z /\
  Bot.overall_sentiment o = "POSITIVE" /\ Bot.confidence o == 7 # 10.
Proof. repeat split. Qed.

(** C1, as stated, fails: with counts POSITIVE 1, NEGATIVE 0, NEUTRAL 2
    the label of strictly greatest count is NEUTRAL, and the aggregate
    reports POSITIVE; with counts POSITIVE 2, NEGATIVE 1, NEUTRAL 2 two
    labels tie for the greatest count, and the aggregate reports
    POSITIVE again. *)
Lemma neutral_majority_reported_positive :
  (count_label "POSITIVE" neutral_majority
   < count_label "NEUTRAL" neutral_majority)%nat /\
  (count_label "NEGATIVE" neutral_majority
   < count_label "NEUTRAL" neutral_majority)%nat /\
  Bot.overall_sentiment (Bot.calculate_overall_sentiment neutral_majority)
  = "POSITIVE" /\
  count_label "POSITIVE" five_articles = count_label "NEUTRAL" five_articles /\
  (count_label "NEGATIVE" five_articles
   < count_label "NEUTRAL" five_articles)%nat /\
  Bot.overall_sentiment (Bot.calculate_overall_sentiment five_articles)
  = "POSITIVE".
Proof.
  repeat split; cbn; lia.
Qed.

(** C1, amended. The overall sentiment compares the POSITIVE count with
    the NEGATIVE count only: POSITIVE when there are more positive than
    negative articles, NEGATIVE when there are more negative than
    positive ones, NEUTRAL when the two counts tie; the NEUTRAL count
    plays no part. *)
Theorem overall_sentiment_compares_positive_negative
    (rs : list label_score) :
  Bot.overall_sentiment (Bot.calculate_overall_sentiment rs)
  = if (count_label "NEGATIVE" rs <? count_label "POSITIVE" rs)%nat
    then "POSITIVE"
    else if (count_label "POSITIVE" rs <? count_label "NEGATIVE" rs)%nat
         then "NEGATIVE"
         else "NEUTRAL".
Proof.
  destruct rs as [|r rs]; [reflexivity|].
  unfold Bot.calculate_overall_sentiment, count_label.
  cbn [Bot.overall_sentiment]. rewrite !sum_ones_length.
  set (p := List.length (filter (fun r0 => label r0 =? "POSITIVE") (r :: rs))).
  set (n := List.length (filter (fun r0 => label r0 =? "NEGATIVE") (r :: rs))).
  rewrite !Z.gtb_ltb.
  destruct (Nat.ltb_spec n p) as [H|H].
  - replace (Z.of_nat n <? Z.of_nat p)%Z with true
      by (symmetry; apply Z.ltb_lt; lia).
    reflexivity.
  - replace (Z.of_nat n <? Z.of_nat p)%Z with false
      by (symmetry; apply Z.ltb_ge; lia).
    destruct (Nat.ltb_spec p n) as [H'|H'].
    + replace (Z.of_nat p <? Z.of_nat n)%Z with true
        by (symmetry; apply Z.ltb_lt; lia).
      reflexivity.
    + replace (Z.of_nat p <? Z.of_nat n)%Z with false
        by (symmetry; apply Z.ltb_ge; lia).
      reflexivity.
Qed.

(** The dashboard's dominant sentiment is a label that occurs: on a
    tie between Positive and Negative without a neutral article it is
    one of the two, not Neutral. *)
Lemma dashboard_tie_is_not_neutral (lbl : string) :
  idxmax_answer ["Positive"; "Negative"] lbl -> lbl <> "Neutral".
Proof.
  intros [Hin _] ->. cbn in Hin.
  destruct Hin as [H | [H | []]]; discriminate H.
Qed.

(** The tie of the specification: three positive, three negative, no
    neutral article. *)
Example three_three_tie :
  Bot.overall_sentiment
    (Bot.calculate_overall_sentiment
       (repeat {| label := "POSITIVE"; score := 8 # 10 |} 3
        ++ repeat {| label := "NEGATIVE"; score := 7 # 10 |} 3)%list)
  = "NEUTRAL".
Proof. reflexivity. Qed.

Lemma mean_bounds (s : Q) (n : nat) :
  0 <= s -> s <= inject_Z (Z.of_nat (S n)) ->
  0 <= s / inject_Z (Z.of_nat (S n)) /\
  s / inject_Z (Z.of_nat (S n)) <= 1 /\
  s / inject_Z (Z.of_nat (S n)) * inject_Z (Z.of_nat (S n)) == s.
Proof.
  intros H0 H1.
  assert (Hpos : 0 < inject_Z (Z.of_nat (S n))).
  { replace 0 with (inject_Z 0) by reflexivity.
    rewrite <- Zlt_Qlt. lia. }
  assert (Hne : ~ inject_Z (Z.of_nat (S n)) == 0).
  { intros E. rewrite E in Hpos. exact (Qlt_irrefl _ Hpos). }
  repeat split.
  - apply Qle_shift_div_l; [exact Hpos|]. rewrite Qmult_0_l. exact H0.
  - apply Qle_shift_div_r; [exact Hpos|]. rewrite Qmult_1_l. exact H1.
  - rewrite Qmult_comm. apply Qmult_div_r. exact Hne.
Qed.

(** C4. For classified articles (labels among the canonical three,
    confidences between 0 and 1) the three counts add up to the total,
    the total is the length of the sequence, the average confidence lies
    between 0 and 1 and is the mean of all confidences whatever their
    label, and it is 0 when the total is 0. *)
Theorem aggregate_invariants (rs : list label_score) :
  Forall (fun r => In (label r) canonical_labels) rs ->
  Forall (fun r => 0 <= score r /\ score r <= 1) rs ->
  let o := Bot.calculate_overall_sentiment rs in
  (Bot.positive_count o + Bot.negative_count o + Bot.neutral_count o
   = Bot.total_articles o)%Z /\
  Bot.total_articles o = Z.of_nat (List.length rs) /\
  0 <= Bot.confidence o /\ Bot.confidence o <= 1 /\
  Bot.confidence o * inject_Z (Bot.total_articles o) == total_score rs /\
  (Bot.total_articles o = 0%Z -> Bot.confidence o = 0).
Proof.
  intros Hlab Hsc o.
  destruct (overall_counts rs) as [Hp [Hn [Hu Ht]]]. fold o in Hp, Hn, Hu, Ht.
  pose proof (canonical_counts rs Hlab) as Hsum.
  split; [rewrite Hp, Hn, Hu, Ht; lia|].
  split; [exact Ht|].
  destruct rs as [|r rs].
  - subst o. cbn. repeat split; discriminate.
  - destruct (total_score_bounds (r :: rs) Hsc) as [H0 H1].
    cbn [List.length] in H1.
    destruct (mean_bounds (total_score (r :: rs)) (List.length rs) H0 H1)
      as [M0 [M1 M2]].
    pose proof (overall_confidence r rs) as Hc. fold o in Hc.
    cbn [List.length] in Hc.
    rewrite Ht. cbn [List.length].
    repeat split.
    + rewrite Hc. exact M0.
    + rewrite Hc. exact M1.
    + rewrite Hc. exact M2.
    + intros E. lia.
Qed.

Lemma aggregate_invariants_witness :
  let o := Bot.calculate_overall_sentiment five_articles in
  (Bot.positive_count o + Bot.negative_count o + Bot.neutral_count o
   = Bot.total_articles o)%Z /\
  Bot.total_articles o = Z.of_nat (List.length five_articles) /\
  0 <= Bot.confidence o /\ Bot.confidence o <= 1 /\
  Bot.confidence o * inject_Z (Bot.total_articles o)
  == total_score five_articles /\
  (Bot.total_articles o = 0%Z -> Bot.confidence o = 0).
Proof.
  apply (aggregate_invariants five_articles).
  - unfold five_articles, canonical_labels.
    repeat (apply Forall_cons; [cbn [In label]; auto 6|]). apply Forall_nil.
  - unfold five_articles.
    repeat (apply Forall_cons; [cbn [score]; split; discriminate|]).
    apply Forall_nil.
Defined.

(** ** The empty input *)

(** C9, as stated, fails: the aggregate of the empty sequence is the
    dictionary of six entries, which has no top positive and no top
    negative article; the bot derives these later in [analyze_command],
    and for an empty list of sentiments (here: one article fetched, the
    model not loaded) that step is not reached, the result message
    raising a division by zero before it. *)
Lemma empty_sequence_reaches_no_exemplars :
  snd (Bot.analyze_sentiment bot_without_model [title acme_article]) = [] /\
  Bot.render "Finnhub" [acme_article] [] = Raise ZeroDivisionError.
Proof. split; reflexivity. Qed.

(** C9, amended. On the empty sequence [calculate_overall_sentiment]
    returns exactly the dictionary with overall sentiment NEUTRAL,
    confidence 0, the three counts 0 and total 0, and classifying no
    headline returns the empty list without a call of the model, in both
    front ends. *)
Theorem empty_input_aggregate :
  Bot.calculate_overall_sentiment []
  = {| Bot.overall_sentiment := "NEUTRAL";
       Bot.confidence := 0;
       Bot.positive_count := 0;
       Bot.negative_count := 0;
       Bot.neutral_count := 0;
       Bot.total_articles := 0 |} /\
  (forall self, Bot.analyze_sentiment self [] = ([], [])) /\
  (forall run, Dashboard.analyze_sentiment run [] = ([], Ok [])).
Proof.
  repeat split.
Qed.

(** ** Top exemplars *)

Lemma first_max_tail {A : Type} (k : A -> Q) (a : A) (xs : list A)
    (i : nat) (r : A) :
  first_max_at k (a :: xs) (S i) r ->
  first_max_at k xs i r /\ k a < k r.
Proof.
  intros [Hi Hall]. split; [split|].
  - exact Hi.
  - intros j x Hj. destruct (Hall (S j) x Hj) as [Hle Hlt].
    split; [exact Hle | intros; apply Hlt; lia].
  - destruct (Hall 0%nat a eq_refl) as [_ Hlt]. apply Hlt. lia.
Qed.

(** The first maximum of the selected rows, located in the frame. *)
Lemma first_max_of_filter {A : Type} (k : A -> Q) (p : A -> bool)
    (xs : list A) :
  forall i r, first_max_at k (filter p xs) i r ->
  exists i', nth_error xs i' = Some r /\ p r = true /\
    forall j x, nth_error xs j = Some x -> p x = true ->
                k x <= k r /\ ((j < i')%nat -> k x < k r).
Proof.
  induction xs as [|a xs IH]; intros i r Hmax.
  - destruct Hmax as [Hi _]. destruct i; discriminate.
  - cbn [filter] in Hmax. destruct (p a) eqn:Ea.
    + destruct i as [|i].
      * destruct Hmax as [Hi Hall]. injection Hi as <-.
        exists 0%nat. repeat split; [exact Ea| |lia].
        assert (Hin : In x (a :: filter p xs)).
        { destruct j as [|j]; simpl in H.
          - injection H as <-. left. reflexivity.
          - right. apply filter_In. split; [|assumption].
            eapply nth_error_In; eauto. }
        destruct (In_nth_error _ _ Hin) as [j' Hj'].
        exact (proj1 (Hall j' x Hj')).
      * destruct (first_max_tail k a _ i r Hmax) as [Htail Ha].
        destruct (IH i r Htail) as [i' [Hi' [Hp Hall']]].
        exists (S i'). repeat split.
        -- exact Hi'.
        -- exact Hp.
        -- destruct j as [|j]; simpl in H.
           ++ injection H as <-. apply Qlt_le_weak. exact Ha.
           ++ exact (proj1 (Hall' j x H H0)).
        -- intros Hlt. destruct j as [|j]; simpl in H.
           ++ injection H as <-. exact Ha.
           ++ apply (proj2 (Hall' j x H H0)). lia.
    + destruct (IH i r Hmax) as [i' [Hi' [Hp Hall']]].
      exists (S i'). repeat split.
      * exact Hi'.
      * exact Hp.
      * destruct j as [|j]; simpl in H.
        -- injection H as <-. congruence.
        -- exact (proj1 (Hall' j x H H0)).
      * intros Hlt. destruct j as [|j]; simpl in H.
        -- injection H as <-. congruence.
        -- apply (proj2 (Hall' j x H H0)). lia.
Qed.

Lemma top_exemplar_none (lbl : string) (df : list Bot.row) :
  Bot.top_exemplar lbl df = None <->
  List.length (filter (fun r => Bot.sentiment r =? lbl) df) = 0%nat.
Proof.
  unfold Bot.top_exemplar.
  destruct (filter (fun r => Bot.sentiment r =? lbl) df) as [|r rs];
    simpl; split; intros H; try reflexivity; discriminate.
Qed.

Example first_of_tied_maxima :
  Bot.top_exemplar "POSITIVE" three_positive_rows
  = Some {| Bot.row_headline := "B"; Bot.sentiment := "POSITIVE";
            Bot.row_confidence := 9 # 10 |} /\
  Bot.top_exemplar "NEGATIVE" three_positive_rows = None.
Proof. split; reflexivity. Qed.

(** C6. The top positive (negative) article of the bot is the POSITIVE
    (NEGATIVE) row of greatest confidence, the earliest one in fetch
    order among rows of equal greatest confidence, and there is none
    exactly when no row carries the label. *)
Theorem top_exemplar_first_of_maxima (lbl : string) (df : list Bot.row) :
  match Bot.top_exemplar lbl df with
  | Some r => exists i, first_top_at lbl df i r
  | None => List.length (filter (fun r => Bot.sentiment r =? lbl) df) = 0%nat
  end.
Proof.
  destruct (Bot.top_exemplar lbl df) as [r|] eqn:E.
  - unfold Bot.top_exemplar in E.
    remember (filter (fun r => Bot.sentiment r =? lbl) df) as sel eqn:Hsel.
    destruct sel as [|r0 sel]; [discriminate|].
    simpl in E. injection E as E.
    destruct (max_from_first_max Bot.row_confidence sel r0) as [i Hi].
    rewrite E, Hsel in Hi.
    destruct (first_max_of_filter _ _ _ _ _ Hi) as [i' [Hn [Hp Hall]]].
    exists i'. split; [exact Hn|]. split.
    + apply String.eqb_eq. exact Hp.
    + intros j x Hj Hx. apply Hall; [exact Hj|].
      apply String.eqb_eq. exact Hx.
  - apply top_exemplar_none. exact E.
Qed.

(** ** Fetching from the symbol-based provider *)

Lemma convert_news_skips (iso : Z -> result string) (a : raw_news) :
  has_headline a = false -> Dashboard.convert_news iso a = Ok None.
Proof.
  unfold has_headline, Dashboard.convert_news. intros ->. reflexivity.
Qed.

Lemma convert_news_keeps (iso : Z -> result string) (a : raw_news)
    (o : option article) :
  has_headline a = true ->
  Dashboard.convert_news iso a = Ok o ->
  exists art, o = Some art /\ title art = headline_text a /\ title art <> "".
Proof.
  unfold has_headline, Dashboard.convert_news. intros Hh. rewrite Hh.
  destruct (datetime a) as [t|]; cbn [bind]; [|discriminate].
  destruct (iso t) as [s|]; cbn [bind]; [|discriminate].
  intros E. injection E as <-. eexists. split; [reflexivity|].
  cbn [title]. split; [reflexivity|].
  unfold headline_text. destruct (headline a) as [h|]; [|discriminate].
  cbn in Hh. unfold Py.truthy in Hh. intros ->. discriminate.
Qed.

Lemma for_each_convert (iso : Z -> result string) (xs : list raw_news) :
  forall ys, for_each (Dashboard.convert_news iso) xs = Ok ys ->
  map title (keep_some ys) = map headline_text (filter has_headline xs) /\
  Forall (fun art => title art <> "") (keep_some ys).
Proof.
  induction xs as [|a xs IH]; intros ys H.
  - injection H as <-. split; [reflexivity | constructor].
  - cbn [for_each] in H.
    destruct (Dashboard.convert_news iso a) as [o|] eqn:Ea;
      cbn [bind] in H; [|discriminate].
    destruct (for_each (Dashboard.convert_news iso) xs) as [ys'|];
      cbn [bind] in H; [|discriminate].
    injection H as <-. destruct (IH ys' eq_refl) as [IHt IHf].
    cbn [filter]. destruct (has_headline a) eqn:Eh.
    + destruct (convert_news_keeps iso a o Eh Ea) as [art [-> [Ht Hne]]].
      unfold keep_some in *. cbn [flat_map app map]. split.
      * rewrite Ht, IHt. reflexivity.
      * constructor; assumption.
    + rewrite (convert_news_skips iso a Eh) in Ea. injection Ea as <-.
      unfold keep_some in *. cbn [flat_map app]. split; assumption.
Qed.


Lemma slice_to_length {A : Type} (xs : list A) (n : Z) :
  (0 <= n)%Z -> (Z.of_nat (List.length (Py.slice_to xs n)) <= n)%Z.
Proof.
  intros Hn. unfold Py.slice_to.
  destruct (Z.ltb_spec n 0) as [H|H]; [lia|].
  pose proof (firstn_le_length (Z.to_nat n) xs). lia.
Qed.

Lemma filter_length_le {A : Type} (p : A -> bool) (xs : list A) :
  (List.length (filter p xs) <= List.length xs)%nat.
Proof.
  induction xs as [|x xs IH]; simpl; [lia|].
  destruct (p x); simpl; lia.
Qed.

(** The bot's copy is the dashboard's with the bound fixed at 20. *)
Lemma bot_fetch_is_dashboard_fetch_20 (self : Bot.bot)
    (iso : Z -> result string) (symbol : string) (days_back : Z) :
  snd (Bot.fetch_news_finnhub self iso symbol days_back)
  = snd (Dashboard.fetch_news_finnhub (Bot.finnhub_client self) iso symbol
                                      20 days_back).
Proof.
  unfold Bot.fetch_news_finnhub, Dashboard.fetch_news_finnhub.
  destruct (Bot.finnhub_client self) as [client|]; [|reflexivity].
  destruct (company_news client symbol days_back) as [news|];
    cbn [bind]; [|reflexivity].
  change (Bot.convert_news iso) with (Dashboard.convert_news iso).
  destruct (for_each (Dashboard.convert_news iso) (Py.slice_to news 20));
    reflexivity.
Qed.





(** ** Failed symbol resolution *)

Lemma no_common_stock_none (res : list candidate) :
  (forall r, In r res -> is_common_stock r = false) ->
  us_stocks_of res = [] /\ find is_common_stock res = None.
Proof.
  intros H. split.
  - unfold us_stocks_of. induction res as [|r res IH]; [reflexivity|].
    cbn [filter]. rewrite (H r (or_introl eq_refl)). cbn [andb].
    apply IH. intros r' Hr'. apply H. right. exact Hr'.
  - induction res as [|r res IH]; [reflexivity|].
    cbn [find]. rewrite (H r (or_introl eq_refl)).
    apply IH. intros r' Hr'. apply H. right. exact Hr'.
Qed.

Lemma dashboard_symbol_unresolved (client : finnhub_api) (company : string) :
  resolution_fails client company ->
  exists notices,
    Dashboard.get_company_symbol (Some client) company
    = (CallSymbolLookup company :: notices, None)
    /\ Forall is_notice notices.
Proof.
  unfold Dashboard.get_company_symbol.
  intros [e H | H | res H Hnone]; rewrite H.
  - eexists. split; [reflexivity|]. repeat constructor.
  - exists []. split; [reflexivity | constructor].
  - destruct (no_common_stock_none res Hnone) as [-> ->].
    exists []. split; [reflexivity | constructor].
Qed.

Lemma bot_symbol_unresolved (self : Bot.bot) (client : finnhub_api)
    (company : string) :
  Bot.finnhub_client self = Some client ->
  resolution_fails client company ->
  exists notices,
    Bot.get_company_symbol self company
    = (CallSymbolLookup company :: notices, company)
    /\ Forall is_notice notices.
Proof.
  unfold Bot.get_company_symbol. intros ->.
  intros [e H | H | res H Hnone]; rewrite H.
  - eexists. split; [reflexivity|]. repeat constructor.
  - exists []. split; [reflexivity | constructor].
  - destruct (no_common_stock_none res Hnone) as [-> ->].
    exists []. split; [reflexivity | constructor].
Qed.

(** C3, as stated, fails: in the bot a failed symbol search is followed
    by a news fetch under the company name itself, and the article found
    that way is classified and reported (total 1, not 0). *)
Lemma unresolved_symbol_still_fetched :
  resolution_fails (finnhub_serving [news_item (Some "Acme wins contract")])
                   "Acme" /\
  fst (Bot.analyze_command acme_bot sample_clock "Acme")
  = [CallSymbolLookup "Acme"; CallCompanyNews "Acme" 7;
     CallPipeline ["Acme wins contract"]] /\
  snd (Bot.analyze_command acme_bot sample_clock "Acme")
  = Bot.Results
      {| Bot.api_source := "Finnhub";
         Bot.summary_of :=
           Bot.calculate_overall_sentiment
             [{| label := "POSITIVE"; score := 9 # 10 |}];
         Bot.positive_pct := 1 / 1 * 100;
         Bot.negative_pct := 0 / 1 * 100;
         Bot.neutral_pct := 0 / 1 * 100;
         Bot.most_positive := Some "Acme wins contract...";
         Bot.most_negative := None |} /\
  Bot.total_articles
    (Bot.calculate_overall_sentiment
       [{| label := "POSITIVE"; score := 9 # 10 |}]) = 1%Z.
Proof.
  split; [apply lookup_without_results; reflexivity|].
  repeat split.
Qed.

Lemma bot_fetch_calls_company_news (self : Bot.bot) (client : finnhub_api)
    (iso : Z -> result string) (symbol : string) (days_back : Z) :
  Bot.finnhub_client self = Some client ->
  In (CallCompanyNews symbol days_back)
     (fst (Bot.fetch_news_finnhub self iso symbol days_back)).
Proof.
  intros Hclient. unfold Bot.fetch_news_finnhub. rewrite Hclient.
  destruct (news <- company_news client symbol days_back ;;
            for_each (Bot.convert_news iso) (Py.slice_to news 20));
    left; reflexivity.
Qed.

(** C3, amended. When the symbol search fails, the dashboard's
    [fetch_news] for the symbol-based provider returns no article; its
    only provider call is the symbol search, and it ends by showing the
    user a warning (the advice to switch to NewsAPI for a name taken for
    an Indian company, the request for a stock symbol otherwise): no
    news is fetched, from either provider. The bot's
    [get_company_symbol] answers the company name instead, and the news
    fetch is made under that name. *)
Theorem unresolved_symbol_routing (client : finnhub_api) (company : string) :
  resolution_fails client company ->
  (forall newsapi iso n days_back,
     exists notices,
       Dashboard.fetch_news newsapi (Some client) iso company n "finnhub"
                            days_back
       = (CallSymbolLookup company
          :: notices
             ++ [UiWarning
                   (if Py.any (fun word => Py.contains word (Py.lower company))
                              Dashboard.indian_companies
                    then "Please switch to NewsAPI"
                    else "Could not find stock symbol")], [])%list
       /\ Forall is_notice notices) /\
  (forall self iso,
     Bot.finnhub_client self = Some client ->
     Py.any (fun word => Py.contains word (Py.lower company))
            Bot.indian_companies = false ->
     snd (Bot.get_company_symbol self company) = company /\
     In (CallCompanyNews company 7)
        (fst (fst (Bot.fetch_for_command self iso company))) /\
     exists notices,
       Bot.fetch_for_command self iso company
       = ((CallSymbolLookup company :: notices)
          ++ fst (Bot.fetch_news_finnhub self iso company 7),
          snd (Bot.fetch_news_finnhub self iso company 7), "Finnhub")%list
       /\ Forall is_notice notices).
Proof.
  intros Hfail. split.
  - intros newsapi iso n days_back.
    destruct (dashboard_symbol_unresolved client company Hfail)
      as [notices [Hsym Hnot]].
    unfold Dashboard.fetch_news. cbn [String.eqb is_some andb].
    replace ("finnhub" =? "finnhub") with true by reflexivity.
    cbn [andb]. rewrite Hsym. cbn [Py.truthy_opt].
    exists notices. split; [reflexivity | exact Hnot].
  - intros self iso Hclient Hroute.
    destruct (bot_symbol_unresolved self client company Hclient Hfail)
      as [notices [Hsym Hnot]].
    pose proof (bot_fetch_calls_company_news self client iso company 7
                  Hclient) as Hcall.
    unfold Bot.fetch_for_command. rewrite Hroute, Hsym.
    destruct (Bot.fetch_news_finnhub self iso company 7) as [ev found].
    cbn [fst snd] in *. split; [reflexivity|]. split.
    + apply in_or_app. right. exact Hcall.
    + exists notices. split; [reflexivity | exact Hnot].
Qed.

Lemma unresolved_symbol_routing_witness :
  (forall newsapi iso n days_back,
     exists notices,
       Dashboard.fetch_news newsapi (Some (finnhub_serving [])) iso "Acme"
                            n "finnhub" days_back
       = (CallSymbolLookup "Acme"
          :: notices
             ++ [UiWarning
                   (if Py.any (fun word => Py.contains word (Py.lower "Acme"))
                              Dashboard.indian_companies
                    then "Please switch to NewsAPI"
                    else "Could not find stock symbol")], [])%list
       /\ Forall is_notice notices) /\
  (forall self iso,
     Bot.finnhub_client self = Some (finnhub_serving []) ->
     Py.any (fun word => Py.contains word (Py.lower "Acme"))
            Bot.indian_companies = false ->
     snd (Bot.get_company_symbol self "Acme") = "Acme" /\
     In (CallCompanyNews "Acme" 7)
        (fst (fst (Bot.fetch_for_command self iso "Acme"))) /\
     exists notices,
       Bot.fetch_for_command self iso "Acme"
       = ((CallSymbolLookup "Acme" :: notices)
          ++ fst (Bot.fetch_news_finnhub self iso "Acme" 7),
          snd (Bot.fetch_news_finnhub self iso "Acme" 7), "Finnhub")%list
       /\ Forall is_notice notices).
Proof.
  apply (unresolved_symbol_routing (finnhub_serving []) "Acme").
  apply lookup_without_results. reflexivity.
Defined.

(** ** Percentages of the result message *)

Lemma percentage_defined (count total : Z) :
  total <> 0%Z ->
  Bot.percentage count total
  = Ok (inject_Z count / inject_Z total * 100).
Proof.
  intros H. unfold Bot.percentage, Py.truediv.
  destruct (Qeq_bool (inject_Z total) 0) eqn:E; [|reflexivity].
  apply Qeq_bool_iff in E. exfalso. apply H.
  unfold Qeq in E. cbn in E. lia.
Qed.

Lemma percentage_of_zero_total (count : Z) :
  Bot.percentage count 0 = Raise ZeroDivisionError.
Proof. reflexivity. Qed.

(** Rendering an empty list of sentiments divides by the total 0. *)
Lemma render_without_sentiments (api_used : string) (found : list article) :
  Bot.render api_used found [] = Raise ZeroDivisionError.
Proof. reflexivity. Qed.

(** A result message that is rendered has a frame of at least one row. *)
Lemma rendered_frame_has_rows (api_used : string) (a : article)
    (found : list article) (sentiment_results : list label_score)
    (r : Bot.report) :
  Bot.render api_used (a :: found) sentiment_results = Ok r ->
  Bot.build_frame (a :: found) sentiment_results <> [].
Proof.
  destruct sentiment_results as [|x rest].
  - rewrite render_without_sentiments. discriminate.
  - intros _. discriminate.
Qed.

(** With articles fetched and no sentiment returned for them, the bot
    answers with the error reply of its outer handler. *)
Lemma analyze_command_without_sentiments (self : Bot.bot)
    (iso : Z -> result string) (company : string) (ev : list event)
    (a : article) (found : list article) (api_used : string) :
  Bot.fetch_for_command self iso company = (ev, a :: found, api_used) ->
  snd (Bot.analyze_sentiment self (map title (a :: found))) = [] ->
  snd (Bot.analyze_command self iso company) = Bot.ErrorReply ZeroDivisionError.
Proof.
  intros Hfetch Hnone. unfold Bot.analyze_command. rewrite Hfetch.
  destruct (Bot.analyze_sentiment self (map title (a :: found)))
    as [ev' out]. cbn [snd] in Hnone. subst out.
  rewrite render_without_sentiments. reflexivity.
Qed.

(** The dashboard divides by the number of fetched articles, which is
    positive on this path: no division error there. *)
Lemma dashboard_overview_defined (run : pipeline) (found : list article)
    (out : list label_score) :
  found <> [] ->
  snd (Dashboard.analyze_sentiment run (map title found)) = Ok out ->
  List.length out = List.length found ->
  exists m, Dashboard.overview run found = Ok (Some m) /\
            Dashboard.total_articles m = Z.of_nat (List.length found).
Proof.
  intros Hne Hout Hlen. destruct found as [|a found]; [congruence|].
  unfold Dashboard.overview. rewrite Hout. cbn [bind].
  rewrite !length_map, Hlen, Nat.eqb_refl. cbn [negb].
  unfold Dashboard.percentage, Py.truediv.
  replace (Qeq_bool (inject_Z (Z.of_nat (List.length (a :: found)))) 0)
    with false.
  - cbn [bind]. eexists. split; reflexivity.
  - symmetry. apply not_true_is_false. intros E.
    apply Qeq_bool_iff in E. unfold Qeq in E. cbn in E. lia.
Qed.

(** C8, at the failing input. One article is fetched, the classifier
    returns no result, the aggregate has total 0, and computing the
    percentages of the result message raises ZeroDivisionError, which
    the outer handler of [analyze_command] turns into its error reply. *)
Theorem zero_total_percentages_raise :
  Bot.calculate_overall_sentiment
    (snd (Bot.analyze_sentiment bot_without_model ["Acme wins contract"]))
  = {| Bot.overall_sentiment := "NEUTRAL";
       Bot.confidence := 0;
       Bot.positive_count := 0;
       Bot.negative_count := 0;
       Bot.neutral_count := 0;
       Bot.total_articles := 0 |} /\
  Bot.percentage 0 0 = Raise ZeroDivisionError /\
  Bot.analyze_command bot_without_model sample_clock "Acme"
  = ([CallSymbolLookup "Acme"; CallCompanyNews "Acme" 7;
      LogError "Error in analyze_command"],
     Bot.ErrorReply ZeroDivisionError).
Proof. repeat split. Qed.

(** * Further properties of the code *)

(** ** Symbol resolution *)

Lemma filter_nil_false {A : Type} (p : A -> bool) (xs : list A) :
  filter p xs = [] -> forall x, In x xs -> p x = false.
Proof.
  induction xs as [|a xs IH]; intros H x Hx; [destruct Hx|].
  cbn [filter] in H. destruct (p a) eqn:Ea; [discriminate|].
  destruct Hx as [<- | Hx]; [exact Ea | exact (IH H x Hx)].
Qed.

(** X1. A symbol the dashboard resolves is the symbol of a common-stock
    candidate of the provider's answer, and it carries an exchange
    suffix (a dot) only when every common-stock candidate does. *)
Theorem resolved_symbol_is_preferred_common_stock (client : finnhub_api)
    (company s : string) :
  snd (Dashboard.get_company_symbol (Some client) company) = Some s ->
  exists res r,
    symbol_lookup client company = Ok (Some res) /\
    In r res /\ is_common_stock r = true /\ cand_symbol r = Some s /\
    (Py.contains "." s = true ->
     forall r', In r' res -> is_common_stock r' = true ->
                Py.contains "." (symbol_or r' "") = true).
Proof.
  unfold Dashboard.get_company_symbol.
  destruct (symbol_lookup client company) as [[res|]|e] eqn:El;
    cbn [snd]; try discriminate.
  destruct (us_stocks_of res) as [|r0 rest] eqn:Eus.
  - destruct (find is_common_stock res) as [r|] eqn:Ef; [|discriminate].
    intros Hs. destruct (find_some _ _ Ef) as [Hin Hc].
    exists res, r. repeat split; try assumption.
    intros _ r' Hr' Hc'.
    pose proof (filter_nil_false _ _ Eus r' Hr') as Hf. cbn in Hf.
    rewrite Hc' in Hf. cbn [andb] in Hf.
    apply negb_false_iff. exact Hf.
  - intros Hs.
    assert (Hin : In r0 (us_stocks_of res)) by (rewrite Eus; left; reflexivity).
    unfold us_stocks_of in Hin. apply filter_In in Hin.
    destruct Hin as [Hin Hp]. apply andb_true_iff in Hp.
    destruct Hp as [Hc Hdot]. apply negb_true_iff in Hdot.
    exists res, r0. repeat split; try assumption.
    intros Hcontra. unfold symbol_or in Hdot. rewrite Hs in Hdot. congruence.
Qed.

Lemma resolved_symbol_is_preferred_common_stock_witness :
  exists res r,
    symbol_lookup two_listings "Reliance" = Ok (Some res) /\
    In r res /\ is_common_stock r = true /\ cand_symbol r = Some "REL" /\
    (Py.contains "." "REL" = true ->
     forall r', In r' res -> is_common_stock r' = true ->
                Py.contains "." (symbol_or r' "") = true).
Proof.
  apply (resolved_symbol_is_preferred_common_stock two_listings "Reliance").
  reflexivity.
Defined.

(** X2. The bot resolves a symbol as the dashboard does and answers the
    company name itself wherever the dashboard answers none: without a
    client, on a provider error, on an answer without common stock, and
    for a preferred candidate that lacks a symbol. *)
Theorem bot_symbol_is_dashboard_symbol_or_name (self : Bot.bot)
    (company : string) :
  snd (Bot.get_company_symbol self company)
  = match snd (Dashboard.get_company_symbol (Bot.finnhub_client self) company)
    with
    | Some s => s
    | None => company
    end.
Proof.
  unfold Bot.get_company_symbol, Dashboard.get_company_symbol.
  destruct (Bot.finnhub_client self) as [client|]; [|reflexivity].
  destruct (symbol_lookup client company) as [[res|]|e]; try reflexivity.
  cbn [snd]. unfold symbol_or.
  destruct (us_stocks_of res) as [|r0 rest].
  - destruct (find is_common_stock res) as [r|]; [|reflexivity].
    destruct (cand_symbol r); reflexivity.
  - destruct (cand_symbol r0); reflexivity.
Qed.

(** ** Provider selection in the dashboard *)

(** X3. A request whose source has no configured client, or whose source
    is neither finnhub nor newsapi, calls no provider: it returns no
    article and reports the missing configuration. *)
Theorem fetch_news_without_configuration (newsapi : option newsapi_api)
    (finnhub : option finnhub_api) (iso : Z -> result string)
    (company source : string) (n days_back : Z) :
  (source = "finnhub" -> finnhub = None) ->
  (source = "newsapi" -> newsapi = None) ->
  Dashboard.fetch_news newsapi finnhub iso company n source days_back
  = ([UiError ("No valid API configuration found for source: " ++ source)],
     []).
Proof.
  intros Hf Hn. unfold Dashboard.fetch_news.
  destruct (String.eqb_spec source "finnhub") as [E|E].
  - rewrite (Hf E). cbn [is_some andb].
    destruct (String.eqb_spec source "newsapi") as [E'|E'].
    + rewrite (Hn E'). reflexivity.
    + reflexivity.
  - cbn [andb]. destruct (String.eqb_spec source "newsapi") as [E'|E'].
    + rewrite (Hn E'). reflexivity.
    + reflexivity.
Qed.

Lemma fetch_news_without_configuration_witness :
  Dashboard.fetch_news None (Some two_listings) sample_clock "Apple" 20
                       "bing" 7
  = ([UiError "No valid API configuration found for source: bing"], []).
Proof.
  apply (fetch_news_without_configuration None (Some two_listings)
           sample_clock "Apple" "bing" 20 7); discriminate.
Defined.

Lemma dashboard_symbol_events (finnhub : option finnhub_api)
    (company : string) :
  Forall (event_of_source "finnhub")
         (fst (Dashboard.get_company_symbol finnhub company)).
Proof.
  unfold Dashboard.get_company_symbol.
  destruct finnhub as [client|]; [|constructor].
  destruct (symbol_lookup client company); repeat constructor.
Qed.

Lemma dashboard_finnhub_events (finnhub : option finnhub_api)
    (iso : Z -> result string) (symbol : string) (n days_back : Z) :
  Forall (event_of_source "finnhub")
         (fst (Dashboard.fetch_news_finnhub finnhub iso symbol n days_back)).
Proof.
  unfold Dashboard.fetch_news_finnhub.
  destruct finnhub as [client|]; [|constructor].
  destruct (news <- company_news client symbol days_back ;;
            for_each (Dashboard.convert_news iso) (Py.slice_to news n));
    repeat constructor.
Qed.

Lemma dashboard_newsapi_events (newsapi : option newsapi_api)
    (company : string) (n days_back : Z) :
  Forall (event_of_source "newsapi")
         (fst (Dashboard.fetch_news_newsapi newsapi company n days_back)).
Proof.
  unfold Dashboard.fetch_news_newsapi.
  destruct newsapi as [client|]; [|constructor].
  match goal with
  | |- context [get_everything client ?q days_back n] =>
      destruct (get_everything client q days_back n)
  end; repeat constructor.
Qed.

(** X4. The dashboard's [fetch_news] keeps to the provider the request
    names: with source finnhub it never calls NewsAPI, with source
    newsapi it never calls Finnhub, with any other source it calls
    neither; and it never calls the model. *)
Theorem fetch_news_keeps_to_its_provider (newsapi : option newsapi_api)
    (finnhub : option finnhub_api) (iso : Z -> result string)
    (company source : string) (n days_back : Z) :
  Forall (event_of_source source)
         (fst (Dashboard.fetch_news newsapi finnhub iso company n source
                                    days_back)).
Proof.
  unfold Dashboard.fetch_news.
  destruct (String.eqb_spec source "finnhub") as [E|E].
  - subst source. destruct finnhub as [client|]; cbn [is_some andb].
    + pose proof (dashboard_symbol_events (Some client) company) as Hs.
      destruct (Dashboard.get_company_symbol (Some client) company)
        as [ev sym]. cbn [fst] in Hs.
      destruct (Py.truthy_opt sym).
      * match goal with
        | |- context [Dashboard.fetch_news_finnhub ?c ?i ?s ?m ?d] =>
            pose proof (dashboard_finnhub_events c i s m d) as Hf;
            destruct (Dashboard.fetch_news_finnhub c i s m d) as [ev' found]
        end.
        cbn [fst] in *. apply Forall_app. split; assumption.
      * cbn [fst]. apply Forall_app. split; [assumption|].
        repeat constructor.
    + cbn. repeat constructor.
  - cbn [andb]. destruct (String.eqb_spec source "newsapi") as [E'|E'].
    + subst source. destruct newsapi as [client|]; cbn [is_some andb].
      * apply dashboard_newsapi_events.
      * repeat constructor.
    + cbn [andb]. repeat constructor.
Qed.

(** ** What the fetchers return *)

Lemma keep_some_length_le {A : Type} (xs : list (option A)) :
  (List.length (keep_some xs) <= List.length xs)%nat.
Proof.
  unfold keep_some. induction xs as [|[a|] xs IH]; cbn; lia.
Qed.

Lemma dashboard_fetch_bounded (finnhub : option finnhub_api)
    (iso : Z -> result string) (symbol : string) (n days_back : Z) :
  (0 <= n)%Z ->
  let found :=
    snd (Dashboard.fetch_news_finnhub finnhub iso symbol n days_back) in
  (Z.of_nat (List.length found) <= n)%Z /\
  Forall (fun art => title art <> "") found.
Proof.
  intros Hn. unfold Dashboard.fetch_news_finnhub.
  destruct finnhub as [client|]; [|cbn; split; [lia | constructor]].
  destruct (company_news client symbol days_back) as [news|e]; cbn [bind];
    [|cbn; split; [lia | constructor]].
  destruct (for_each (Dashboard.convert_news iso) (Py.slice_to news n))
    as [ys|e] eqn:E; cbn [snd]; [|cbn; split; [lia | constructor]].
  split.
  - pose proof (keep_some_length_le ys).
    pose proof (for_each_length _ _ _ E).
    pose proof (slice_to_length news n Hn). lia.
  - exact (proj2 (for_each_convert iso _ ys E)).
Qed.

Lemma bot_newsapi_titles (self : Bot.bot) (company : string) (days_back : Z) :
  Forall (fun art => title art <> "")
         (snd (Bot.fetch_news_newsapi self company days_back)).
Proof.
  unfold Bot.fetch_news_newsapi.
  destruct (Bot.newsapi self) as [client|]; [|constructor].
  match goal with
  | |- context [get_everything client ?q days_back 20] =>
      destruct (get_everything client q days_back 20) as [response|e]
  end; cbn [snd]; [|constructor].
  destruct (status response =? "ok"); [|constructor].
  apply Forall_forall. intros art Hart. apply filter_In in Hart.
  destruct Hart as [_ Ht]. unfold Py.truthy in Ht. intros E.
  rewrite E in Ht. discriminate.
Qed.

(** X5. Whatever the providers answer, every article the bot fetches for
    a command has a non-empty title, and a fetch from Finnhub yields at
    most 20 articles. *)
Theorem bot_fetch_titles_and_bound (self : Bot.bot)
    (iso : Z -> result string) (company : string) :
  let found := snd (fst (Bot.fetch_for_command self iso company)) in
  Forall (fun art => title art <> "") found /\
  (snd (Bot.fetch_for_command self iso company) = "Finnhub" ->
   (List.length found <= 20)%nat).
Proof.
  unfold Bot.fetch_for_command.
  destruct (Py.any (fun word => Py.contains word (Py.lower company))
                   Bot.indian_companies).
  - pose proof (bot_newsapi_titles self company 7) as Ht.
    destruct (Bot.fetch_news_newsapi self company 7) as [ev found].
    cbn [fst snd] in *. split; [exact Ht | discriminate].
  - destruct (Bot.get_company_symbol self company) as [ev sym].
    pose proof (bot_fetch_is_dashboard_fetch_20 self iso sym 7) as Heq.
    destruct (dashboard_fetch_bounded (Bot.finnhub_client self) iso sym 20 7)
      as [Hlen Ht]; [lia|].
    rewrite <- Heq in Hlen, Ht.
    destruct (Bot.fetch_news_finnhub self iso sym 7) as [ev' found].
    cbn [fst snd] in *. split; [exact Ht | intros _; lia].
Qed.

Lemma for_each_convert_unconvertible (iso : Z -> result string)
    (xs : list raw_news) :
  Exists (unconvertible iso) xs ->
  exists e, for_each (Dashboard.convert_news iso) xs = Raise e.
Proof.
  induction 1 as [a xs [Hh Hbad] | a xs _ [e IH]].
  - cbn [for_each]. unfold Dashboard.convert_news.
    fold (has_headline a). rewrite Hh.
    destruct Hbad as [Hd | [t [e [Hd Hi]]]]; rewrite Hd; cbn [bind].
    + eexists. reflexivity.
    + rewrite Hi. cbn [bind]. eexists. reflexivity.
  - cbn [for_each]. rewrite IH.
    destruct (Dashboard.convert_news iso a); cbn [bind]; eexists; reflexivity.
Qed.

(** X6. One bad timestamp discards the whole batch: when an entry among
    the first [n] has a headline but no timestamp, or one that does not
    convert, the dashboard's Finnhub fetch reports an error and returns
    no article, whatever the other entries are. *)
Theorem bad_timestamp_discards_batch (client : finnhub_api)
    (iso : Z -> result string) (symbol : string) (n days_back : Z)
    (news : list raw_news) :
  (0 <= n)%Z ->
  company_news client symbol days_back = Ok news ->
  Exists (unconvertible iso) (firstn (Z.to_nat n) news) ->
  Dashboard.fetch_news_finnhub (Some client) iso symbol n days_back
  = ([CallCompanyNews symbol days_back;
      UiError "Error fetching news from Finnhub"], []).
Proof.
  intros Hn Hnews Hbad. unfold Dashboard.fetch_news_finnhub.
  rewrite Hnews. cbn [bind].
  assert (Hslice : Py.slice_to news n = firstn (Z.to_nat n) news).
  { unfold Py.slice_to. destruct (Z.ltb_spec n 0); [lia | reflexivity]. }
  rewrite Hslice.
  destruct (for_each_convert_unconvertible iso _ Hbad) as [e He].
  rewrite He. reflexivity.
Qed.

Lemma bad_timestamp_discards_batch_witness :
  Dashboard.fetch_news_finnhub (Some (finnhub_serving news_with_gap))
                               sample_clock "ACME" 5 7
  = ([CallCompanyNews "ACME" 7; UiError "Error fetching news from Finnhub"],
     []).
Proof.
  apply (bad_timestamp_discards_batch (finnhub_serving news_with_gap)
           sample_clock "ACME" 5 7 news_with_gap).
  - lia.
  - reflexivity.
  - apply Exists_cons_tl. apply Exists_cons_hd.
    split; [reflexivity | left; reflexivity].
Defined.

(** ** More on label normalisation *)

Lemma upper_ascii_idempotent (c : ascii) :
  Py.upper_ascii (Py.upper_ascii c) = Py.upper_ascii c.
Proof. destruct c as [[] [] [] [] [] [] [] []]; reflexivity. Qed.

Lemma upper_idempotent (s : string) : Py.upper (Py.upper s) = Py.upper s.
Proof.
  unfold Py.upper. induction s as [|c s IH]; [reflexivity|].
  cbn [Py.str_map]. rewrite upper_ascii_idempotent, IH. reflexivity.
Qed.

Lemma canonical_recognised (l : string) :
  In l canonical_labels -> In l recognised_labels.
Proof.
  unfold canonical_labels, recognised_labels. cbn [In].
  intros [H | [H | [H | []]]]; auto 10.
Qed.

(** The mapping table sends a recognised label to a canonical one and
    leaves any other label alone. *)
Lemma dict_get_cases (u : string) :
  (In u recognised_labels /\ In (dict_get label_mapping u u) canonical_labels)
  \/ (~ In u recognised_labels /\ dict_get label_mapping u u = u).
Proof.
  destruct (in_dec string_dec u recognised_labels) as [Hin | Hout].
  - left. split; [exact Hin|].
    unfold recognised_labels in Hin. cbn [In] in Hin.
    unfold canonical_labels.
    destruct Hin as [H | [H | [H | [H | [H | [H | []]]]]]]; subst u;
      cbn; auto 6.
  - right. split; [exact Hout | apply dict_get_unrecognised; exact Hout].
Qed.

Lemma canonical_fixed (v : string) :
  In v canonical_labels ->
  Py.upper v = v /\ dict_get label_mapping v v = v.
Proof.
  unfold canonical_labels. cbn [In].
  intros [H | [H | [H | []]]]; subst v; split; reflexivity.
Qed.

Lemma normalize_output_shape (res : model_result) (o : label_score) :
  normalize_result res = Ok o ->
  exists r, o = {| label := dict_get label_mapping (Py.upper (label r))
                                     (Py.upper (label r));
                   score := score r |}.
Proof.
  unfold normalize_result.
  destruct res as [r | rs].
  - cbn [bind]. intros H. injection H as <-. exists r. reflexivity.
  - destruct (Py.max_by score rs) as [r|e]; cbn [bind]; [|discriminate].
    intros H. injection H as <-. exists r. reflexivity.
Qed.

(** X7. Normalisation is idempotent: a record the adapter has produced
    is left unchanged when it is normalised again, whether its label was
    mapped or passed through. Every produced label is in upper case. *)
Theorem normalize_result_idempotent (res : model_result) (o : label_score) :
  normalize_result res = Ok o ->
  normalize_result (Single o) = Ok o /\ Py.upper (label o) = label o.
Proof.
  intros H. destruct (normalize_output_shape res o H) as [r ->].
  rewrite normalize_single. cbn [label score].
  assert (Hup : Py.upper (Py.upper (label r)) = Py.upper (label r))
    by apply upper_idempotent.
  remember (Py.upper (label r)) as u eqn:Eu. clear Eu.
  destruct (dict_get_cases u) as [[_ Hc] | [Hout Hu]].
  - destruct (canonical_fixed _ Hc) as [Hcup Hfix].
    rewrite Hcup, Hfix. split; reflexivity.
  - rewrite Hu, Hup, Hu. split; reflexivity.
Qed.

Lemma normalize_result_idempotent_witness :
  normalize_result (Single {| label := "NEUTRAL"; score := 2 # 10 |})
  = Ok {| label := "NEUTRAL"; score := 2 # 10 |} /\
  Py.upper "NEUTRAL" = "NEUTRAL".
Proof.
  apply (normalize_result_idempotent
           (PerClass [ {| label := "label_0"; score := 1 # 10 |};
                       {| label := "label_1"; score := 2 # 10 |} ])
           {| label := "NEUTRAL"; score := 2 # 10 |}).
  reflexivity.
Defined.

(** X8. The adapter's output label is one of POSITIVE, NEGATIVE, NEUTRAL
    exactly when the upper-cased label of the record it worked on is in
    the mapping table: no other input yields a canonical label. *)
Theorem canonical_output_iff_recognised_input (res : model_result)
    (r o : label_score) :
  chosen res r ->
  normalize_result res = Ok o ->
  (In (label o) canonical_labels
   <-> In (Py.upper (label r)) recognised_labels).
Proof.
  intros Hr Ho. rewrite (normalize_chosen res r Hr) in Ho.
  remember (dict_get label_mapping (Py.upper (label r)) (Py.upper (label r)))
    as v eqn:Ev.
  assert (Hl : label o = v) by (injection Ho as <-; reflexivity).
  rewrite Hl. subst v.
  destruct (dict_get_cases (Py.upper (label r))) as [[Hin Hc] | [Hout Hu]].
  - split; intros _; assumption.
  - rewrite Hu. split; intros H; [apply canonical_recognised in H|];
      contradiction.
Qed.

Lemma canonical_output_iff_recognised_input_witness :
  In "POSITIVE" canonical_labels
  <-> In (Py.upper "Label_2") recognised_labels.
Proof.
  apply (canonical_output_iff_recognised_input
           (Single {| label := "Label_2"; score := 1 # 2 |})
           {| label := "Label_2"; score := 1 # 2 |}
           {| label := "POSITIVE"; score := 1 # 2 |}).
  - constructor.
  - reflexivity.
Defined.

(** ** More on the aggregate *)

Lemma count_label_permutation (lbl : string) (rs rs' : list label_score) :
  Permutation rs rs' -> count_label lbl rs = count_label lbl rs'.
Proof.
  unfold count_label.
  induction 1 as [|r rs rs' _ IH | r1 r2 rs | rs1 rs2 rs3 _ IH1 _ IH2].
  - reflexivity.
  - cbn [filter]. destruct (label r =? lbl); cbn [List.length]; lia.
  - cbn [filter]. destruct (label r1 =? lbl), (label r2 =? lbl); reflexivity.
  - lia.
Qed.

Lemma overall_sentiment_of_counts (rs : list label_score) :
  let o := Bot.calculate_overall_sentiment rs in
  Bot.overall_sentiment o
  = if (Bot.positive_count o >? Bot.negative_count o)%Z then "POSITIVE"
    else if (Bot.negative_count o >? Bot.positive_count o)%Z then "NEGATIVE"
    else "NEUTRAL".
Proof. destruct rs; reflexivity. Qed.

(** X9. The verdict of the aggregate does not depend on the order of
    the articles: a permutation of the results leaves the overall
    sentiment, the three counts and the total unchanged. *)
Theorem aggregate_order_independent (rs rs' : list label_score) :
  Permutation rs rs' ->
  let o := Bot.calculate_overall_sentiment rs in
  let o' := Bot.calculate_overall_sentiment rs' in
  Bot.overall_sentiment o = Bot.overall_sentiment o' /\
  Bot.positive_count o = Bot.positive_count o' /\
  Bot.negative_count o = Bot.negative_count o' /\
  Bot.neutral_count o = Bot.neutral_count o' /\
  Bot.total_articles o = Bot.total_articles o'.
Proof.
  intros Hp o o'.
  destruct (overall_counts rs) as [Hpos [Hneg [Hneu Htot]]].
  destruct (overall_counts rs') as [Hpos' [Hneg' [Hneu' Htot']]].
  fold o in Hpos, Hneg, Hneu, Htot. fold o' in Hpos', Hneg', Hneu', Htot'.
  assert (Ep : Bot.positive_count o = Bot.positive_count o').
  { rewrite Hpos, Hpos', (count_label_permutation _ _ _ Hp). reflexivity. }
  assert (En : Bot.negative_count o = Bot.negative_count o').
  { rewrite Hneg, Hneg', (count_label_permutation _ _ _ Hp). reflexivity. }
  split.
  { unfold o, o'. rewrite !overall_sentiment_of_counts.
    fold o o'. rewrite Ep, En. reflexivity. }
  split; [exact Ep|]. split; [exact En|].
  split.
  { rewrite Hneu, Hneu', (count_label_permutation _ _ _ Hp). reflexivity. }
  rewrite Htot, Htot', (Permutation_length Hp). reflexivity.
Qed.

Lemma aggregate_order_independent_witness :
  let o := Bot.calculate_overall_sentiment five_articles in
  let o' := Bot.calculate_overall_sentiment (rev five_articles) in
  Bot.overall_sentiment o = Bot.overall_sentiment o' /\
  Bot.positive_count o = Bot.positive_count o' /\
  Bot.negative_count o = Bot.negative_count o' /\
  Bot.neutral_count o = Bot.neutral_count o' /\
  Bot.total_articles o = Bot.total_articles o'.
Proof.
  apply (aggregate_order_independent five_articles (rev five_articles)).
  apply Permutation_rev.
Defined.

Lemma canonical_count (rs : list label_score) :
  (count_label "POSITIVE" rs + count_label "NEGATIVE" rs
   + count_label "NEUTRAL" rs
   = List.length (filter is_canonical rs))%nat.
Proof.
  unfold count_label. induction rs as [|r rs IH]; [reflexivity|].
  cbn [filter]. unfold is_canonical at 1.
  destruct (String.eqb_spec (label r) "POSITIVE") as [E|E].
  - rewrite E. cbn. lia.
  - destruct (String.eqb_spec (label r) "NEGATIVE") as [E'|E'].
    + rewrite E'. cbn. lia.
    + destruct (label r =? "NEUTRAL"); cbn [orb List.length]; lia.
Qed.

Lemma filter_full {A : Type} (p : A -> bool) (xs : list A) :
  List.length (filter p xs) = List.length xs <->
  Forall (fun x => p x = true) xs.
Proof.
  induction xs as [|x xs IH]; cbn [filter List.length].
  - split; [constructor | reflexivity].
  - pose proof (filter_length_le p xs) as Hle.
    destruct (p x) eqn:Ex; cbn [List.length]; split; intros H.
    + constructor; [exact Ex | apply IH; lia].
    + inversion H; subst. f_equal. apply IH. assumption.
    + lia.
    + inversion H; subst. congruence.
Qed.

Lemma is_canonical_in (r : label_score) :
  is_canonical r = true <-> In (label r) canonical_labels.
Proof.
  unfold is_canonical, canonical_labels. cbn [In].
  rewrite !orb_true_iff, !String.eqb_eq. split.
  - intros [[H | H] | H]; auto.
  - intros [H | [H | [H | []]]]; auto.
Qed.

(** X10. The three counts of the aggregate add up to the total exactly
    when every result carries one of the labels POSITIVE, NEGATIVE,
    NEUTRAL: an article with any other label is counted in the total and
    in no count. *)
Theorem counts_add_up_iff_canonical (rs : list label_score) :
  let o := Bot.calculate_overall_sentiment rs in
  (Bot.positive_count o + Bot.negative_count o + Bot.neutral_count o
   = Bot.total_articles o)%Z
  <-> Forall (fun r => In (label r) canonical_labels) rs.
Proof.
  intros o. destruct (overall_counts rs) as [Hp [Hn [Hu Ht]]].
  fold o in Hp, Hn, Hu, Ht. rewrite Hp, Hn, Hu, Ht.
  pose proof (canonical_count rs) as Hc.
  split.
  - intros H. assert (Hfull : List.length (filter is_canonical rs)
                              = List.length rs) by lia.
    apply filter_full in Hfull.
    eapply Forall_impl; [|exact Hfull].
    intros r Hr. apply is_canonical_in. exact Hr.
  - intros H.
    assert (Hfull : Forall (fun r => is_canonical r = true) rs).
    { eapply Forall_impl; [|exact H]. intros r Hr.
      apply is_canonical_in. exact Hr. }
    apply filter_full in Hfull. lia.
Qed.

(** ** The bot's result message *)

Lemma percentage_ok (count total : Z) (q : Q) :
  Bot.percentage count total = Ok q ->
  total <> 0%Z /\ q = inject_Z count / inject_Z total * 100.
Proof.
  unfold Bot.percentage, Py.truediv.
  destruct (Qeq_bool (inject_Z total) 0) eqn:E; cbn [bind]; [discriminate|].
  intros H. injection H as <-. split; [|reflexivity].
  intros ->. discriminate.
Qed.

Lemma render_ok (api_used : string) (found : list article)
    (rs : list label_score) (r : Bot.report) :
  Bot.render api_used found rs = Ok r ->
  let o := Bot.calculate_overall_sentiment rs in
  Bot.total_articles o <> 0%Z /\
  Bot.summary_of r = o /\
  Bot.positive_pct r
  = inject_Z (Bot.positive_count o) / inject_Z (Bot.total_articles o) * 100 /\
  Bot.negative_pct r
  = inject_Z (Bot.negative_count o) / inject_Z (Bot.total_articles o) * 100 /\
  Bot.neutral_pct r
  = inject_Z (Bot.neutral_count o) / inject_Z (Bot.total_articles o) * 100.
Proof.
  unfold Bot.render.
  destruct (Bot.percentage
              (Bot.positive_count (Bot.calculate_overall_sentiment rs))
              (Bot.total_articles (Bot.calculate_overall_sentiment rs)))
    as [ppos|] eqn:Ep; cbn [bind]; [|discriminate].
  destruct (Bot.percentage
              (Bot.negative_count (Bot.calculate_overall_sentiment rs))
              (Bot.total_articles (Bot.calculate_overall_sentiment rs)))
    as [pneg|] eqn:En; cbn [bind]; [|discriminate].
  destruct (Bot.percentage
              (Bot.neutral_count (Bot.calculate_overall_sentiment rs))
              (Bot.total_articles (Bot.calculate_overall_sentiment rs)))
    as [pneu|] eqn:Eu; cbn [bind]; [|discriminate].
  intros H. injection H as <-.
  destruct (percentage_ok _ _ _ Ep) as [Hne ->].
  destruct (percentage_ok _ _ _ En) as [_ ->].
  destruct (percentage_ok _ _ _ Eu) as [_ ->].
  cbn. repeat split. exact Hne.
Qed.

Lemma share_bounds (c t : Z) :
  (0 <= c <= t)%Z -> (0 < t)%Z ->
  0 <= inject_Z c / inject_Z t * 100 /\ inject_Z c / inject_Z t * 100 <= 100.
Proof.
  intros [Hc0 Hct] Ht.
  assert (Hpos : 0 < inject_Z t).
  { replace 0 with (inject_Z 0) by reflexivity. rewrite <- Zlt_Qlt. exact Ht. }
  assert (H0 : 0 <= inject_Z c / inject_Z t).
  { apply Qle_shift_div_l; [exact Hpos|]. rewrite Qmult_0_l.
    replace 0 with (inject_Z 0) by reflexivity. rewrite <- Zle_Qle. exact Hc0. }
  assert (H1 : inject_Z c / inject_Z t <= 1).
  { apply Qle_shift_div_r; [exact Hpos|]. rewrite Qmult_1_l.
    rewrite <- Zle_Qle. exact Hct. }
  split.
  - apply Qmult_le_0_compat; [exact H0 | discriminate].
  - setoid_replace 100 with (1 * 100) at 2 by ring.
    apply Qmult_le_compat_r; [exact H1 | discriminate].
Qed.

(** X11. In a rendered result message each of the three percentages lies
    between 0 and 100. *)
Theorem rendered_percentages (api_used : string) (found : list article)
    (rs : list label_score) (r : Bot.report) :
  Bot.render api_used found rs = Ok r ->
  (0 <= Bot.positive_pct r /\ Bot.positive_pct r <= 100) /\
  (0 <= Bot.negative_pct r /\ Bot.negative_pct r <= 100) /\
  (0 <= Bot.neutral_pct r /\ Bot.neutral_pct r <= 100).
Proof.
  intros Hr. destruct (render_ok _ _ _ _ Hr) as [Hne [_ [-> [-> ->]]]].
  destruct (overall_counts rs) as [Hp [Hn [Hu Ht]]].
  pose proof (counts_at_most_total rs) as Hle.
  rewrite Hp, Hn, Hu, Ht in *.
  assert (Hpos : (0 < Z.of_nat (List.length rs))%Z) by lia.
  split; [apply share_bounds; lia|].
  split; apply share_bounds; lia.
Qed.

Lemma rendered_percentages_witness :
  exists r,
    Bot.render "Finnhub" five_found five_articles = Ok r /\
    (0 <= Bot.positive_pct r /\ Bot.positive_pct r <= 100) /\
    (0 <= Bot.negative_pct r /\ Bot.negative_pct r <= 100) /\
    (0 <= Bot.neutral_pct r /\ Bot.neutral_pct r <= 100).
Proof.
  eexists. split; [reflexivity|].
  apply (rendered_percentages "Finnhub" five_found five_articles).
  reflexivity.
Defined.

Lemma render_with_sentiments (api_used : string) (found : list article)
    (x : label_score) (rs : list label_score) :
  exists r, Bot.render api_used found (x :: rs) = Ok r.
Proof.
  unfold Bot.render.
  assert (Hne : Bot.total_articles (Bot.calculate_overall_sentiment (x :: rs))
                <> 0%Z).
  { rewrite (proj2 (proj2 (proj2 (overall_counts (x :: rs))))).
    cbn [List.length]. lia. }
  rewrite !(percentage_defined _ _ Hne). cbn [bind].
  eexists. reflexivity.
Qed.

(** X12. Rendering the result message fails exactly when there is no
    sentiment result, and then with a division by zero; with at least
    one result it succeeds and reports the aggregate of the results. *)
Theorem render_fails_only_without_sentiments (api_used : string)
    (found : list article) (rs : list label_score) :
  match Bot.render api_used found rs with
  | Ok r => rs <> [] /\ Bot.summary_of r = Bot.calculate_overall_sentiment rs
  | Raise e => rs = [] /\ e = ZeroDivisionError
  end.
Proof.
  destruct rs as [|x rs].
  - rewrite render_without_sentiments. split; reflexivity.
  - destruct (render_with_sentiments api_used found x rs) as [r Hr].
    rewrite Hr. split; [discriminate|].
    exact (proj1 (proj2 (render_ok _ _ _ _ Hr))).
Qed.

Lemma bot_analyze_without_model (self : Bot.bot) (texts : list string) :
  Bot.sentiment_pipeline self = None ->
  Bot.analyze_sentiment self texts = ([], []).
Proof.
  intros H. unfold Bot.analyze_sentiment. rewrite H.
  destruct texts; reflexivity.
Qed.

(** X13. A report is sent only for a fetch that found articles, with a
    loaded model, and it counts at least one article. A bot whose model
    is not loaded never sends a report: it answers that no article was
    found, or with the division error. *)
Theorem report_needs_articles_and_model (self : Bot.bot)
    (iso : Z -> result string) (company : string) :
  match snd (Bot.analyze_command self iso company) with
  | Bot.Results r =>
      snd (fst (Bot.fetch_for_command self iso company)) <> [] /\
      Bot.sentiment_pipeline self <> None /\
      (1 <= Bot.total_articles (Bot.summary_of r))%Z
  | Bot.NoArticlesFound api_used =>
      snd (fst (Bot.fetch_for_command self iso company)) = [] /\
      api_used = snd (Bot.fetch_for_command self iso company)
  | Bot.ErrorReply e =>
      snd (fst (Bot.fetch_for_command self iso company)) <> [] /\
      e = ZeroDivisionError /\
      snd (Bot.analyze_sentiment self
             (map title (snd (fst (Bot.fetch_for_command self iso company)))))
      = []
  end.
Proof.
  unfold Bot.analyze_command.
  destruct (Bot.fetch_for_command self iso company) as [[ev found] api_used].
  cbn [fst snd]. destruct found as [|a found].
  - cbn [snd]. split; reflexivity.
  - destruct (Bot.analyze_sentiment self (map title (a :: found)))
      as [ev' rs] eqn:Ea.
    destruct rs as [|x rs].
    + rewrite render_without_sentiments. cbn [snd].
      split; [discriminate|]. split; reflexivity.
    + destruct (render_with_sentiments api_used (a :: found) x rs) as [r Hr].
      rewrite Hr. cbn [snd]. split; [discriminate|]. split.
      * intros Hnone.
        rewrite (bot_analyze_without_model self _ Hnone) in Ea.
        discriminate.
      * rewrite (proj1 (proj2 (render_ok _ _ _ _ Hr))).
        rewrite (proj2 (proj2 (proj2 (overall_counts (x :: rs))))).
        cbn [List.length]. lia.
Qed.

(** ** Routing and configuration in the bot *)





Lemma analyze_command_without_clients (self : Bot.bot)
    (iso : Z -> result string) (company : string) :
  Bot.newsapi self = None ->
  Bot.finnhub_client self = None ->
  exists api_used,
    Bot.analyze_command self iso company = ([], Bot.NoArticlesFound api_used).
Proof.
  intros Hn Hf.
  unfold Bot.analyze_command, Bot.fetch_for_command, Bot.fetch_news_newsapi,
    Bot.get_company_symbol, Bot.fetch_news_finnhub.
  rewrite Hn, Hf.
  destruct (Py.any (fun word => Py.contains word (Py.lower company))
                   Bot.indian_companies); eexists; reflexivity.
Qed.

(** X15. When constructing the NewsAPI client raises during start-up,
    the Finnhub client and the model are never set up either, and the
    bot answers every command with "no articles found" without calling a
    provider or the model, whatever the Finnhub key is. *)
Theorem newsapi_failure_disables_bot (env : Bot.environment) (k : string)
    (e : exn) (iso : Z -> result string) (company : string) :
  Bot.newsapi_key env = Some k ->
  Py.truthy k = true ->
  Bot.NewsApiClient env k = Raise e ->
  snd (Bot._initialize_apis env)
  = {| Bot.newsapi := None; Bot.finnhub_client := None;
       Bot.sentiment_pipeline := None |} /\
  exists api_used,
    Bot.analyze_command (snd (Bot._initialize_apis env)) iso company
    = ([], Bot.NoArticlesFound api_used).
Proof.
  intros Hk Ht He.
  assert (Hinit : snd (Bot._initialize_apis env)
                  = {| Bot.newsapi := None; Bot.finnhub_client := None;
                       Bot.sentiment_pipeline := None |}).
  { unfold Bot._initialize_apis, Bot.construct_if_key.
    rewrite Hk, Ht, He. reflexivity. }
  split; [exact Hinit|]. rewrite Hinit.
  apply analyze_command_without_clients; reflexivity.
Qed.

Lemma newsapi_failure_disables_bot_witness :
  snd (Bot._initialize_apis newsapi_down)
  = {| Bot.newsapi := None; Bot.finnhub_client := None;
       Bot.sentiment_pipeline := None |} /\
  exists api_used,
    Bot.analyze_command (snd (Bot._initialize_apis newsapi_down))
                        sample_clock "Acme"
    = ([], Bot.NoArticlesFound api_used).
Proof.
  apply (newsapi_failure_disables_bot newsapi_down "n-key" ProviderError
           sample_clock "Acme"); reflexivity.
Defined.

(** X16. A start-up without exception leaves a usable bot: the model is
    loaded, and each provider has a client exactly when its key is set
    and non-empty. *)
Theorem clean_startup_sets_handles (env : Bot.environment) :
  fst (Bot._initialize_apis env) = [] ->
  let self := snd (Bot._initialize_apis env) in
  (exists p, Bot.load_pipeline env = Ok p /\
             Bot.sentiment_pipeline self = Some p) /\
  (Bot.newsapi self <> None <-> Py.truthy_opt (Bot.newsapi_key env) = true) /\
  (Bot.finnhub_client self <> None
   <-> Py.truthy_opt (Bot.finnhub_key env) = true).
Proof.
  unfold Bot._initialize_apis, Bot.construct_if_key, Py.truthy_opt.
  destruct (Bot.newsapi_key env) as [kn|];
    [destruct (Py.truthy kn); [destruct (Bot.NewsApiClient env kn)|]|];
    cbn [bind];
    (destruct (Bot.finnhub_key env) as [kf|];
     [destruct (Py.truthy kf); [destruct (Bot.finnhub_Client env kf)|]|]);
    cbn [bind]; try discriminate;
    destruct (Bot.load_pipeline env) as [p|]; cbn [fst snd]; try discriminate;
    intros _;
    (split; [exists p; split; reflexivity|]);
    split; split; intros H; try reflexivity; try discriminate;
    try congruence; exfalso; apply H; reflexivity.
Qed.

Lemma clean_startup_sets_handles_witness :
  let env := {| Bot.newsapi_key := None;
                Bot.finnhub_key := Some "f-key";
                Bot.NewsApiClient := fun _ => Raise ProviderError;
                Bot.finnhub_Client := fun _ => Ok (finnhub_serving []);
                Bot.load_pipeline := Ok two_results_run |} in
  let self := snd (Bot._initialize_apis env) in
  (exists p, Bot.load_pipeline env = Ok p /\
             Bot.sentiment_pipeline self = Some p) /\
  (Bot.newsapi self <> None <-> Py.truthy_opt (Bot.newsapi_key env) = true) /\
  (Bot.finnhub_client self <> None
   <-> Py.truthy_opt (Bot.finnhub_key env) = true).
Proof.
  intros env.
  apply (clean_startup_sets_handles env). reflexivity.
Defined.

(** ** The bot's classifier adapter *)

Lemma has_record_or_empty (results : list model_result) :
  Forall has_record results \/ In (PerClass []) results.
Proof.
  induction results as [|res results [IH | IH]].
  - left. constructor.
  - destruct res as [r | [|r0 rs]].
    + left. constructor; [exact I | exact IH].
    + right. left. reflexivity.
    + left. constructor; [discriminate | exact IH].
  - right. right. exact IH.
Qed.

Lemma for_each_empty_per_class (results : list model_result) :
  In (PerClass []) results ->
  for_each normalize_result results = Raise ValueError.
Proof.
  induction results as [|res results IH]; intros Hin; [destruct Hin|].
  destruct Hin as [-> | Hin]; [reflexivity|].
  cbn [for_each]. rewrite (IH Hin).
  destruct res as [r | [|r0 rs]]; reflexivity.
Qed.

(** X17. The bot's adapter answers all or nothing: for a model call that
    raises nothing, the output has one normalised record for every model
    result, index for index, unless some per-class list is empty, in
    which case the output is empty altogether. *)
Theorem bot_adapter_all_or_nothing (self : Bot.bot) (run : pipeline)
    (texts : list string) (results : list model_result) :
  Bot.sentiment_pipeline self = Some run ->
  texts <> [] ->
  run texts = Ok results ->
  let out := snd (Bot.analyze_sentiment self texts) in
  (~ In (PerClass []) results /\
   List.length out = List.length results /\
   forall i res, nth_error results i = Some res ->
     exists o, nth_error out i = Some o /\ normalize_result res = Ok o)
  \/ (In (PerClass []) results /\ out = []).
Proof.
  intros Hself Hne Hrun.
  unfold Bot.analyze_sentiment. rewrite Hself.
  destruct texts as [|t texts]; [congruence|].
  rewrite Hrun. cbn [bind].
  destruct (has_record_or_empty results) as [Hrec | Hemp].
  - left. destruct (for_each_has_record results Hrec) as [out Hout].
    rewrite Hout. cbn [snd]. split.
    + intros Hin. rewrite Forall_forall in Hrec.
      apply (Hrec _ Hin). reflexivity.
    + split; [exact (for_each_length _ _ _ Hout)|].
      exact (for_each_nth _ _ _ Hout).
  - right. rewrite (for_each_empty_per_class results Hemp).
    split; [exact Hemp | reflexivity].
Qed.

Lemma bot_adapter_all_or_nothing_witness :
  let out := snd (Bot.analyze_sentiment (bot_with two_results_run)
                                        ["Record profit"; "Plant closes"]) in
  let results :=
    [Single {| label := "LABEL_2"; score := 87 # 100 |};
     PerClass [ {| label := "negative"; score := 6 # 10 |};
                {| label := "positive"; score := 4 # 10 |} ]] in
  (~ In (PerClass []) results /\
   List.length out = List.length results /\
   forall i res, nth_error results i = Some res ->
     exists o, nth_error out i = Some o /\ normalize_result res = Ok o)
  \/ (In (PerClass []) results /\ out = []).
Proof.
  apply (bot_adapter_all_or_nothing (bot_with two_results_run)
           two_results_run ["Record profit"; "Plant closes"]).
  - reflexivity.
  - discriminate.
  - reflexivity.
Defined.

(** ** The dashboard's charts *)

Lemma is_letter_upper (c : ascii) :
  Py.is_letter (Py.upper_ascii c) = Py.is_letter c.
Proof. destruct c as [[] [] [] [] [] [] [] []]; reflexivity. Qed.

(** [lower_ascii] yields no capital letter. *)
Lemma lower_ascii_not_capital (c : ascii) :
  let n := nat_of_ascii (Py.lower_ascii c) in
  ((65 <=? n) && (n <=? 90))%nat = false.
Proof. destruct c as [[] [] [] [] [] [] [] []]; reflexivity. Qed.

(** A title-cased string does not go on with a capital letter after a
    leading letter. *)
Lemma title_second_character (s : string) (c0 c1 : ascii) (rest : string) :
  Py.title s = String c0 (String c1 rest) ->
  Py.is_letter c0 = true ->
  ((65 <=? nat_of_ascii c1) && (nat_of_ascii c1 <=? 90))%nat = false.
Proof.
  destruct s as [|a0 [|a1 s]]; cbn; try discriminate.
  intros H Hl. injection H as H0 H1 _.
  rewrite <- H0, is_letter_upper in Hl. rewrite Hl in H1.
  rewrite <- H1. apply lower_ascii_not_capital.
Qed.

Lemma title_not_upper_case (s name : string) :
  In name ["POSITIVE"; "NEGATIVE"; "NEUTRAL"] -> Py.title s <> name.
Proof.
  intros Hin Ht. cbn [In] in Hin.
  destruct Hin as [<- | [<- | [<- | []]]];
    pose proof (title_second_character s _ _ _ Ht eq_refl) as H;
    discriminate H.
Qed.

Lemma value_count_absent (name : string) (sentiments : list string) :
  (forall s, In s sentiments -> s <> name) ->
  Dashboard.value_count name sentiments = 0%Z.
Proof.
  intros H. unfold Dashboard.value_count.
  induction sentiments as [|s sentiments IH]; [reflexivity|].
  cbn [filter]. destruct (String.eqb_spec name s) as [E|E].
  - exfalso. apply (H s (or_introl eq_refl)). symmetry. exact E.
  - apply IH. intros s' Hs'. apply H. right. exact Hs'.
Qed.

(** X18. The pie chart of the dashboard is drawn from zeros: it looks
    the counts up under POSITIVE, NEGATIVE and NEUTRAL, while the
    Sentiment column holds title-cased labels, so for every list of
    sentiment results all three values are 0. *)
Theorem pie_chart_values_are_zero (sentiment_results : list label_score) :
  Dashboard.create_sentiment_pie_chart
    (Dashboard.sentiment_column sentiment_results)
  = [0; 0; 0]%Z.
Proof.
  unfold Dashboard.create_sentiment_pie_chart, Dashboard.sentiment_column.
  assert (H : forall name, In name ["POSITIVE"; "NEGATIVE"; "NEUTRAL"] ->
                Dashboard.value_count name
                  (map (fun r => Py.title (label r)) sentiment_results) = 0%Z).
  { intros name Hname. apply value_count_absent.
    intros s Hs. apply in_map_iff in Hs. destruct Hs as [r [<- _]].
    apply title_not_upper_case. exact Hname. }
  rewrite !H by (cbn; auto). reflexivity.
Qed.

Lemma upper_lower_ascii (c : ascii) :
  Py.upper_ascii (Py.lower_ascii c) = Py.upper_ascii c.
Proof. destruct c as [[] [] [] [] [] [] [] []]; reflexivity. Qed.

(** Title-casing changes the case of letters only. *)
Lemma upper_title_from (s : string) :
  forall b, Py.upper (Py.title_from b s) = Py.upper s.
Proof.
  unfold Py.upper. induction s as [|c s IH]; intros b; [reflexivity|].
  cbn [Py.title_from Py.str_map]. rewrite IH.
  destruct b; [rewrite upper_lower_ascii | rewrite upper_ascii_idempotent];
    reflexivity.
Qed.

Lemma title_of_upper_case (u shown name : string) :
  In (shown, name) [("Positive", "POSITIVE"); ("Negative", "NEGATIVE");
                    ("Neutral", "NEUTRAL")] ->
  Py.upper u = u ->
  (Py.title u = shown <-> u = name).
Proof.
  intros Hin Hu. cbn [In] in Hin.
  destruct Hin as [E | [E | [E | []]]]; injection E as <- <-; split;
    intros H; try (subst u; reflexivity);
    rewrite <- Hu; unfold Py.title in H;
    rewrite <- (upper_title_from u false), H; reflexivity.
Qed.

Lemma normalized_label_upper (res : model_result) (o : label_score) :
  normalize_result res = Ok o -> Py.upper (label o) = label o.
Proof.
  intros H. destruct (normalize_output_shape res o H) as [r ->].
  cbn [label].
  destruct (dict_get_cases (Py.upper (label r))) as [[_ Hc] | [_ Hu]].
  - exact (proj1 (canonical_fixed _ Hc)).
  - rewrite Hu. apply upper_idempotent.
Qed.

Lemma for_each_labels_upper (results : list model_result) :
  forall out, for_each normalize_result results = Ok out ->
  Forall (fun o => Py.upper (label o) = label o) out.
Proof.
  induction results as [|res results IH]; intros out H.
  - injection H as <-. constructor.
  - cbn [for_each] in H.
    destruct (normalize_result res) as [o|] eqn:Eo; cbn [bind] in H;
      [|discriminate].
    destruct (for_each normalize_result results) as [out'|];
      cbn [bind] in H; [|discriminate].
    injection H as <-. constructor.
    + exact (normalized_label_upper res o Eo).
    + apply IH. reflexivity.
Qed.

Lemma dashboard_count_is_bot_count (shown name : string)
    (out : list label_score) :
  In (shown, name) [("Positive", "POSITIVE"); ("Negative", "NEGATIVE");
                    ("Neutral", "NEUTRAL")] ->
  Forall (fun o => Py.upper (label o) = label o) out ->
  Dashboard.value_count shown (Dashboard.sentiment_column out)
  = Z.of_nat (count_label name out).
Proof.
  intros Hin Hup. unfold Dashboard.value_count, Dashboard.sentiment_column,
    count_label. f_equal.
  induction Hup as [|o out Ho _ IH]; [reflexivity|].
  cbn [map filter].
  pose proof (title_of_upper_case (label o) shown name Hin Ho) as Hiff.
  destruct (String.eqb_spec shown (Py.title (label o))) as [E|E];
    destruct (String.eqb_spec (label o) name) as [E'|E'].
  - cbn [List.length]. rewrite IH. reflexivity.
  - exfalso. apply E'. apply Hiff. symmetry. exact E.
  - exfalso. apply E. symmetry. apply Hiff. exact E'.
  - exact IH.
Qed.

(** X19. On the output of the adapter the two front ends count alike:
    the counts the dashboard shows for Positive, Neutral and Negative,
    taken from the title-cased Sentiment column, are the bot's
    positive, neutral and negative counts. *)
Theorem dashboard_counts_are_bot_counts (results : list model_result)
    (out : list label_score) :
  for_each normalize_result results = Ok out ->
  Dashboard.sentiment_chart_data (Dashboard.sentiment_column out)
  = [ ("Positive",
       Bot.positive_count (Bot.calculate_overall_sentiment out));
      ("Neutral",
       Bot.neutral_count (Bot.calculate_overall_sentiment out));
      ("Negative",
       Bot.negative_count (Bot.calculate_overall_sentiment out)) ].
Proof.
  intros H. pose proof (for_each_labels_upper results out H) as Hup.
  destruct (overall_counts out) as [Hp [Hn [Hu _]]].
  rewrite Hp, Hn, Hu. unfold Dashboard.sentiment_chart_data.
  rewrite (dashboard_count_is_bot_count "Positive" "POSITIVE" out),
    (dashboard_count_is_bot_count "Neutral" "NEUTRAL" out),
    (dashboard_count_is_bot_count "Negative" "NEGATIVE" out);
    try exact Hup; cbn [In]; auto.
Qed.

Lemma dashboard_counts_are_bot_counts_witness :
  Dashboard.sentiment_chart_data
    (Dashboard.sentiment_column
       [ {| label := "POSITIVE"; score := 87 # 100 |};
         {| label := "NEGATIVE"; score := 6 # 10 |} ])
  = [ ("Positive",
       Bot.positive_count
         (Bot.calculate_overall_sentiment
            [ {| label := "POSITIVE"; score := 87 # 100 |};
              {| label := "NEGATIVE"; score := 6 # 10 |} ]));
      ("Neutral",
       Bot.neutral_count
         (Bot.calculate_overall_sentiment
            [ {| label := "POSITIVE"; score := 87 # 100 |};
              {| label := "NEGATIVE"; score := 6 # 10 |} ]));
      ("Negative",
       Bot.negative_count
         (Bot.calculate_overall_sentiment
            [ {| label := "POSITIVE"; score := 87 # 100 |};
              {| label := "NEGATIVE"; score := 6 # 10 |} ])) ].
Proof.
  apply (dashboard_counts_are_bot_counts
           [Single {| label := "LABEL_2"; score := 87 # 100 |};
            PerClass [ {| label := "negative"; score := 6 # 10 |};
                       {| label := "positive"; score := 4 # 10 |} ]]).
  reflexivity.
Defined.

Lemma analyze_sentiment_aligned_witness :
  List.length [ {| label := "POSITIVE"; score := 87 # 100 |};
                {| label := "NEGATIVE"; score := 6 # 10 |} ]
  = List.length
      [Single {| label := "LABEL_2"; score := 87 # 100 |};
       PerClass [ {| label := "negative"; score := 6 # 10 |};
                  {| label := "positive"; score := 4 # 10 |} ]] /\
  forall i res,
    nth_error
      [Single {| label := "LABEL_2"; score := 87 # 100 |};
       PerClass [ {| label := "negative"; score := 6 # 10 |};
                  {| label := "positive"; score := 4 # 10 |} ]] i = Some res ->
    exists o,
      nth_error [ {| label := "POSITIVE"; score := 87 # 100 |};
                  {| label := "NEGATIVE"; score := 6 # 10 |} ] i = Some o /\
      normalize_result res = Ok o.
Proof.
  apply (analyze_sentiment_aligned two_results_run
           ["Record profit"; "Plant closes"]).
  - discriminate.
  - reflexivity.
  - reflexivity.
Defined.

Lemma dashboard_percentage_ok (count total : Z) :
  total <> 0%Z ->
  Dashboard.percentage count total
  = Ok (inject_Z count / inject_Z total * 100).
Proof.
  intros H. unfold Dashboard.percentage, Py.truediv.
  destruct (Qeq_bool (inject_Z total) 0) eqn:E; [|reflexivity].
  apply Qeq_bool_iff in E. exfalso. apply H.
  unfold Qeq in E. cbn in E. lia.
Qed.

(** X21. The dashboard's overview never divides by zero. It shows
    nothing when no article was fetched; otherwise it either fails with
    the adapter's own exception, or with a ValueError when the adapter
    returned another number of results than there are headlines, or it
    succeeds with the number of fetched articles, at least 1, as total
    and the percentages taken of that total. *)
Theorem overview_outcome (run : pipeline) (found : list article) :
  match Dashboard.overview run found with
  | Ok None => found = []
  | Ok (Some m) =>
      Dashboard.total_articles m = Z.of_nat (List.length found) /\
      (1 <= Dashboard.total_articles m)%Z /\
      Dashboard.positive_pct m
      = inject_Z (Dashboard.positive_articles m)
        / inject_Z (Dashboard.total_articles m) * 100 /\
      Dashboard.negative_pct m
      = inject_Z (Dashboard.negative_articles m)
        / inject_Z (Dashboard.total_articles m) * 100 /\
      Dashboard.neutral_pct m
      = inject_Z (Dashboard.neutral_articles m)
        / inject_Z (Dashboard.total_articles m) * 100
  | Raise e =>
      found <> [] /\
      (snd (Dashboard.analyze_sentiment run (map title found)) = Raise e
       \/ (e = ValueError /\
           exists out,
             snd (Dashboard.analyze_sentiment run (map title found)) = Ok out
             /\ List.length out <> List.length found))
  end.
Proof.
  destruct found as [|a found]; [reflexivity|].
  unfold Dashboard.overview.
  destruct (snd (Dashboard.analyze_sentiment run (map title (a :: found))))
    as [out|e] eqn:Ea; cbn [bind].
  - rewrite !length_map.
    destruct (Nat.eqb_spec (List.length (a :: found)) (List.length out))
      as [El | El]; cbn [negb].
    + assert (Hne : Z.of_nat (List.length (a :: found)) <> 0%Z)
        by (cbn [List.length]; lia).
      rewrite !(dashboard_percentage_ok _ _ Hne). cbn [bind].
      cbn [Dashboard.total_articles Dashboard.positive_pct
           Dashboard.negative_pct Dashboard.neutral_pct
           Dashboard.positive_articles Dashboard.negative_articles
           Dashboard.neutral_articles].
      repeat split. cbn [List.length]. lia.
    + split; [discriminate|]. right. split; [reflexivity|].
      exists out. split; [reflexivity | congruence].
  - split; [discriminate|]. left. reflexivity.
Qed.

(** ** Free-text messages *)

Example split_example :
  Py.split "  Tata   Motors  " = ["Tata"; "Motors"] /\
  Py.strip "  Tata   Motors  " = "Tata   Motors" /\
  Py.split "" = [] /\ Py.split "   " = [].
Proof. repeat split. Qed.

(** Every part that [split] returns of ASCII text is a word. *)
Lemma split_words (s : string) : ascii_text s -> Forall is_word (Py.split s).
Proof.
  induction s as [|c s IH]; [constructor|].
  intros [Ha Hs]. specialize (IH Hs).
  cbn [Py.split]. destruct (Py.is_space c) eqn:Ec; [exact IH|].
  destruct s as [|c' s'].
  - constructor; [|constructor]. split; [discriminate | cbn; auto].
  - destruct (Py.is_space c') eqn:Ec'.
    + constructor; [|exact IH]. split; [discriminate | cbn; auto].
    + destruct (Py.split (String c' s')) as [|w ws].
      * constructor; [|constructor]. split; [discriminate | cbn; auto].
      * inversion IH as [|? ? [Hne Hsp] Hws]; subst.
        constructor; [|exact Hws]. split; [discriminate|].
        cbn. auto.
Qed.

(** A word followed by white space or by nothing is split off whole. *)
Lemma split_word_app (w t : string) :
  is_word w ->
  (t = "" \/ exists c t', t = String c t' /\ Py.is_space c = true) ->
  Py.split (w ++ t) = w :: Py.split t.
Proof.
  induction w as [|c w IH]; intros Hw Ht; [destruct Hw; congruence|].
  destruct Hw as [_ [Hc [Ha Hsp]]].
  change (String c w ++ t) with (String c (w ++ t)).
  cbn [Py.split]. rewrite Hc.
  destruct w as [|c1 w1].
  - cbn [append]. destruct Ht as [-> | [c' [t' [-> Hc']]]]; [reflexivity|].
    rewrite Hc'. reflexivity.
  - change (String c1 w1 ++ t) with (String c1 (w1 ++ t)).
    pose proof Hsp as [Hc1 _]. rewrite Hc1.
    change (String c1 (w1 ++ t)) with (String c1 w1 ++ t).
    rewrite IH; [reflexivity | | exact Ht].
    split; [discriminate | exact Hsp].
Qed.

Lemma append_empty (s : string) : s ++ "" = s.
Proof.
  induction s as [|c s IH]; [reflexivity|]. cbn [append]. rewrite IH.
  reflexivity.
Qed.

Lemma append_associative (s t u : string) : (s ++ t) ++ u = s ++ (t ++ u).
Proof.
  induction s as [|c s IH]; [reflexivity|]. cbn [append]. rewrite IH.
  reflexivity.
Qed.

Lemma split_join (args : list string) :
  Forall is_word args -> Py.split (Py.join " " args) = args.
Proof.
  unfold Py.join.
  induction 1 as [|w args Hw Hargs IH]; [reflexivity|].
  cbn [String.concat]. destruct args as [|w2 args].
  - rewrite <- (append_empty w) at 1.
    rewrite (split_word_app w "" Hw (or_introl eq_refl)). reflexivity.
  - rewrite (split_word_app w _ Hw).
    + f_equal. exact IH.
    + right. eexists. eexists. split; reflexivity.
Qed.

Lemma rstrip_spaceless (w : string) : spaceless w -> Py.rstrip w = w.
Proof.
  induction w as [|c w IH]; [reflexivity|].
  intros [Hc [_ Hw]]. cbn [Py.rstrip]. rewrite Hc, (IH Hw). reflexivity.
Qed.

Lemma rstrip_before_word (s w : string) :
  is_word w -> Py.rstrip (s ++ w) = s ++ w.
Proof.
  intros [Hne Hsp]. induction s as [|c s IH].
  - apply rstrip_spaceless. exact Hsp.
  - change (String c s ++ w) with (String c (s ++ w)).
    cbn [Py.rstrip]. rewrite IH.
    destruct (String.eqb_spec (s ++ w) "") as [E|E].
    + destruct s; [cbn in E; congruence | discriminate E].
    + rewrite andb_false_r. reflexivity.
Qed.

Lemma join_ends_with_word (w : string) (args : list string) :
  Forall is_word (w :: args) ->
  exists s w', Py.join " " (w :: args) = s ++ w' /\ is_word w'.
Proof.
  unfold Py.join. revert w. induction args as [|w2 args IH]; intros w Hall.
  - exists "", w. split; [reflexivity|]. inversion Hall; assumption.
  - inversion Hall as [|? ? Hw Hrest]; subst.
    destruct (IH w2 Hrest) as [s [w' [Hj Hw']]].
    exists (w ++ " " ++ s), w'. split; [|exact Hw'].
    cbn [String.concat] in *. rewrite Hj.
    rewrite !append_associative. reflexivity.
Qed.

Lemma strip_join (w : string) (args : list string) :
  Forall is_word (w :: args) ->
  Py.strip (Py.join " " (w :: args)) = Py.join " " (w :: args).
Proof.
  intros Hall. unfold Py.strip.
  assert (Hl : Py.lstrip (Py.join " " (w :: args)) = Py.join " " (w :: args)).
  { inversion Hall as [|? ? [Hne Hsp] _]; subst.
    unfold Py.join. cbn [String.concat].
    destruct w as [|c w']; [congruence|]. destruct Hsp as [Hc _].
    destruct args; cbn [append Py.lstrip]; rewrite Hc; reflexivity. }
  rewrite Hl. destruct (join_ends_with_word w args Hall) as [s [w' [-> Hw']]].
  apply rstrip_before_word. exact Hw'.
Qed.

Lemma prefix_empty (s : string) : String.prefix "" s = true.
Proof. destruct s; reflexivity. Qed.

Lemma startswith_join (w : string) (args : list string) :
  w <> "" ->
  Py.startswith (Py.join " " (w :: args)) "/" = Py.startswith w "/".
Proof.
  intros Hne. destruct w as [|c w']; [congruence|].
  unfold Py.startswith, Py.join. cbn [String.concat].
  destruct args; cbn [append String.prefix];
    destruct (ascii_dec "/" c); rewrite ?prefix_empty; reflexivity.
Qed.

(** Stripping a text does not change its words. *)
Lemma split_lstrip (s : string) : Py.split (Py.lstrip s) = Py.split s.
Proof.
  induction s as [|c s IH]; [reflexivity|].
  cbn [Py.lstrip]. destruct (Py.is_space c) eqn:Ec; [|reflexivity].
  rewrite IH. cbn [Py.split]. rewrite Ec. reflexivity.
Qed.

Lemma rstrip_empty_first (c : ascii) (s : string) :
  Py.rstrip (String c s) = "" -> Py.is_space c = true.
Proof.
  cbn [Py.rstrip]. destruct (Py.is_space c); [reflexivity|].
  cbn [andb]. discriminate.
Qed.

Lemma rstrip_first (c : ascii) (s : string) :
  Py.rstrip (String c s) = ""
  \/ exists r, Py.rstrip (String c s) = String c r.
Proof.
  cbn [Py.rstrip].
  destruct (Py.is_space c && (Py.rstrip s =? "")); [left | right; eexists];
    reflexivity.
Qed.

Lemma split_rstrip (s : string) : Py.split (Py.rstrip s) = Py.split s.
Proof.
  induction s as [|c s IH]; [reflexivity|].
  cbn [Py.rstrip].
  destruct (Py.is_space c) eqn:Ec; cbn [andb].
  - destruct (String.eqb_spec (Py.rstrip s) "") as [E|E].
    + cbn [Py.split]. rewrite Ec, <- IH, E. reflexivity.
    + cbn [Py.split]. rewrite Ec. exact IH.
  - destruct s as [|c' s'].
    + reflexivity.
    + destruct (rstrip_first c' s') as [E | [r E]].
      * pose proof (rstrip_empty_first c' s' E) as Hc'.
        rewrite E in IH |- *. cbn [Py.split] in IH |- *.
        rewrite Hc' in IH. rewrite Ec, Hc', <- IH. reflexivity.
      * rewrite E in IH |- *.
        change (Py.split (String c (String c' r)))
          with (if Py.is_space c then Py.split (String c' r)
                else if Py.is_space c' then
                       String c EmptyString :: Py.split (String c' r)
                     else match Py.split (String c' r) with
                          | w :: ws => String c w :: ws
                          | [] => [String c EmptyString]
                          end).
        change (Py.split (String c (String c' s')))
          with (if Py.is_space c then Py.split (String c' s')
                else if Py.is_space c' then
                       String c EmptyString :: Py.split (String c' s')
                     else match Py.split (String c' s') with
                          | w :: ws => String c w :: ws
                          | [] => [String c EmptyString]
                          end).
        rewrite IH. reflexivity.
Qed.

Lemma split_strip (s : string) : Py.split (Py.strip s) = Py.split s.
Proof.
  unfold Py.strip. rewrite split_rstrip. apply split_lstrip.
Qed.

(** X22. When a free-text message of ASCII characters is analysed, the
    company name handed to [analyze_command] is made of the words of the
    message, one to three of them, joined by single spaces: the white
    space around and between the words is normalised away, and the words
    of the company name are those of the message. *)
Theorem message_handler_normalises_text (self : Bot.bot)
    (iso : Z -> result string) (text : string) (ev : list event)
    (r : Bot.reply) :
  ascii_text text ->
  Bot.message_handler self iso text = Some (ev, Some r) ->
  Forall is_word (Py.split text) /\
  (1 <= List.length (Py.split text) <= 3)%nat /\
  (ev, r) = Bot.analyze_command self iso (Py.join " " (Py.split text)) /\
  Py.split (Py.join " " (Py.split text)) = Py.split text.
Proof.
  intros Hascii. unfold Bot.message_handler. rewrite split_strip.
  destruct ((List.length (Py.split text) <=? 3)%nat
            && negb (Py.startswith (Py.strip text) "/")) eqn:E;
    [|discriminate].
  apply andb_true_iff in E. destruct E as [Elen _].
  apply Nat.leb_le in Elen.
  pose proof (split_words text Hascii) as Hw.
  pose proof (split_join _ Hw) as Hround.
  unfold Bot.analyze_command_args.
  destruct (Py.split text) as [|a args] eqn:Es; [discriminate|].
  destruct (Bot.analyze_command self iso (Py.join " " (a :: args)))
    as [ev' r'] eqn:Ea.
  intros H. injection H as <- <-.
  split; [exact Hw|]. split; [cbn [List.length] in *; lia|].
  split; [reflexivity | exact Hround].
Qed.

Lemma message_handler_normalises_text_witness :
  Forall is_word (Py.split "  Acme   Corp ") /\
  (1 <= List.length (Py.split "  Acme   Corp ") <= 3)%nat /\
  (fst (Bot.analyze_command acme_bot sample_clock "Acme Corp"),
   snd (Bot.analyze_command acme_bot sample_clock "Acme Corp"))
  = Bot.analyze_command acme_bot sample_clock
                        (Py.join " " (Py.split "  Acme   Corp ")) /\
  Py.split (Py.join " " (Py.split "  Acme   Corp "))
  = Py.split "  Acme   Corp ".
Proof.
  apply (message_handler_normalises_text acme_bot sample_clock
           "  Acme   Corp ").
  - cbn. repeat split.
  - reflexivity.
Defined.

(** X23. A free-text message and the command agree: a message made of
    one to three words of ASCII characters joined by single spaces, the
    first not starting with a slash, is handled exactly as [/analyze]
    with these words as arguments. *)
Theorem message_is_analyze_command (self : Bot.bot)
    (iso : Z -> result string) (w : string) (args : list string) :
  Forall is_word (w :: args) ->
  (List.length (w :: args) <= 3)%nat ->
  Py.startswith w "/" = false ->
  Bot.message_handler self iso (Py.join " " (w :: args))
  = Some (Bot.analyze_command_args self iso (w :: args)).
Proof.
  intros Hall Hlen Hslash. unfold Bot.message_handler.
  rewrite (strip_join w args Hall), (split_join _ Hall).
  rewrite startswith_join by (inversion Hall as [|? ? [Hne _] _]; exact Hne).
  rewrite Hslash. cbn [negb]. rewrite andb_true_r.
  apply Nat.leb_le in Hlen. rewrite Hlen. reflexivity.
Qed.

Lemma message_is_analyze_command_witness :
  Bot.message_handler acme_bot sample_clock (Py.join " " ["Acme"; "Corp"])
  = Some (Bot.analyze_command_args acme_bot sample_clock ["Acme"; "Corp"]).
Proof.
  apply (message_is_analyze_command acme_bot sample_clock "Acme" ["Corp"]).
  - repeat constructor; try discriminate.
  - cbn. lia.
  - reflexivity.
Defined.

(** ** The exemplar line of the result message *)




